(** * ChiaTestLedger: a container lifecycle handle with health-gated readiness

    Shallow embedding of
    [packages/cactus-test-tooling/src/main/typescript/chia/chia-test-ledger.ts].

    The class keeps two mutable fields ([container], [containerId]) next to
    its construction-time configuration and talks to a container runtime
    (dockerode).  Methods are embedded as computations over an explicit
    state: the object's fields and the chronological trace of the requests
    sent to the runtime, each with the runtime's reply.  The runtime is a
    script: the k-th request of each kind gets the k-th scripted reply.

    JavaScript runs each piece of code between two suspension points to
    completion, so the states of the embedding are the states other code can
    observe.  The only loop, the health poll of [start()], has no bound in
    the source; it is embedded with a fuel counting its iterations. *)

From Stdlib Require Import String Ascii List Arith Bool Lia.
Import ListNotations.
Local Open Scope list_scope.
Local Open Scope string_scope.

Set Implicit Arguments.

(** ** JavaScript values used by the class *)

Module Js.

(** The ways in which a value fails [Joi.string().min(limit).required()]. *)
Inductive joi_error : Type :=
| any_required (key : string)
| string_base (key : string)
| string_empty (key : string)
| string_min (key : string) (limit : nat).

(** A value thrown or used as a rejection reason. *)
Inductive exn : Type :=
| Error (message : string)
    (* [new Error(message)] *)
| AnnotatedError (prefix : string) (e : joi_error)
    (* [new Error(`${prefix} ${error.annotate()}`)]; the text that
       [annotate()] renders is kept as the validation error itself *)
| ChecksError (subject : string)
    (* thrown by the [Checks] helpers of cactus-common *)
| RuntimeError (reason : string).
    (* an error or rejection coming from the container runtime or from
       the log-streaming collaborator *)

(** The state in which a promise ends up. *)
Inductive promise (A : Type) : Type :=
| Fulfilled (a : A)
| Rejected (e : exn)
| Pending.
Arguments Rejected {A} e.
Arguments Pending {A}.

(** [a || b] on [string | undefined]: [undefined] and the empty string are
    falsy. *)
Definition or_string (a : option string) (b : string) : string :=
  match a with
  | Some EmptyString => b
  | Some s => s
  | None => b
  end.

(** A [string | undefined] inside a template literal. *)
Definition template (a : option string) : string :=
  match a with
  | Some s => s
  | None => "undefined"
  end.

(** [s.endsWith(suffix)]. *)
Definition endsWith (s suffix : string) : bool :=
  Nat.leb (String.length suffix) (String.length s) &&
  String.eqb
    (substring (String.length s - String.length suffix)
               (String.length suffix) s)
    suffix.

(** White space as [String.prototype.trim] sees it, within the 8-bit range
    of [ascii]: TAB, LF, VT, FF, CR, SPACE and NBSP. *)
Definition isWhiteSpace (c : ascii) : bool :=
  let n := nat_of_ascii c in
  Nat.eqb n 9 || Nat.eqb n 10 || Nat.eqb n 11 || Nat.eqb n 12
  || Nat.eqb n 13 || Nat.eqb n 32 || Nat.eqb n 160.

(** [s.trim().length === 0]. *)
Fixpoint trimsToEmpty (s : string) : bool :=
  match s with
  | EmptyString => true
  | String c s' => isWhiteSpace c && trimsToEmpty s'
  end.

End Js.
Import Js.

(** ** The dockerode types the class reads *)

Module Dockerode.

Record Container : Type := { id : string }.

Record NetworkInfo : Type := { IPAddress : string }.

(** [Networks] is a JavaScript object used as a map from network name to
    [NetworkInfo]; it is kept as the list of its entries in the order in
    which [Object.keys] enumerates them. *)
Record NetworkSettings_t : Type :=
  { Networks : list (string * NetworkInfo) }.

Record ContainerInfo : Type :=
  { Id : string;
    Status : string;
    State : string;
    NetworkSettings : NetworkSettings_t }.

(** The create options [start()] passes to [docker.run]. *)
Record ContainerCreateOptions : Type :=
  { User : string;
    ExposedPorts : list string;
    PublishAllPorts : bool;
    Privileged : bool;
    Env : list string }.

(** [Object.keys(obj)]. *)
Definition keys (obj : list (string * NetworkInfo)) : list string :=
  map fst obj.

(** [obj[key]]. *)
Fixpoint get (obj : list (string * NetworkInfo)) (key : string)
  : option NetworkInfo :=
  match obj with
  | [] => None
  | (k, v) :: rest => if String.eqb k key then Some v else get rest key
  end.

End Dockerode.
Import Dockerode.

(** ** The runtime and the trace of requests *)

(** How the runtime answers a request that the program awaits: the promise
    (or callback, or event) settles one way or the other, or never does. *)
Inductive reply (A : Type) : Type :=
| Fulfil (a : A)
| Reject (e : exn)
| Silent.
Arguments Reject {A} e.
Arguments Silent {A}.

Definition promise_of {A} (r : reply A) : promise A :=
  match r with
  | Fulfil a => Fulfilled a
  | Reject e => Rejected e
  | Silent => Pending
  end.

(** One entry of the trace: a request and the reply it got. *)
Inductive event : Type :=
| EStop (c : Container) (r : reply unit)
    (* [container.stop()] *)
| ERemove (c : Container) (r : reply unit)
    (* [container.remove()] *)
| ERun (image : string) (cmd : list string)
       (createOptions : ContainerCreateOptions) (r : reply Container)
    (* [docker.run(...)]: [Fulfil c] is the "start" event carrying [c],
       [Reject e] is the callback invoked with the error [e] *)
| EStreamLogs (c : Container) (tag : string) (r : reply unit)
    (* [Containers.streamLogs({container, tag, log})] *)
| EListContainers (r : reply (list ContainerInfo))
    (* [docker.listContainers({})] *)
| ESleep (ms : nat).
    (* [new Promise((resolve2) => setTimeout(resolve2, ms))] *)

Definition isStop (e : event) : bool :=
  match e with EStop _ _ => true | _ => false end.
Definition isRemove (e : event) : bool :=
  match e with ERemove _ _ => true | _ => false end.
Definition isRun (e : event) : bool :=
  match e with ERun _ _ _ _ => true | _ => false end.
Definition isStreamLogs (e : event) : bool :=
  match e with EStreamLogs _ _ _ => true | _ => false end.
Definition isListContainers (e : event) : bool :=
  match e with EListContainers _ => true | _ => false end.
Definition isSleep (e : event) : bool :=
  match e with ESleep _ => true | _ => false end.
(** A wait of exactly [ms] milliseconds. *)
Definition isSleepOf (ms : nat) (e : event) : bool :=
  match e with ESleep m => Nat.eqb m ms | _ => false end.

(** Number of entries of one kind in a trace. *)
Definition count (p : event -> bool) (t : list event) : nat :=
  List.length (filter p t).

(** A scripted runtime: the reply to the k-th request of each kind
    (counting from 0). *)
Record Runtime : Type :=
  { stopReply : nat -> Container -> reply unit;
    removeReply : nat -> Container -> reply unit;
    runReply : nat -> string -> reply Container;
    streamLogsReply : nat -> Container -> reply unit;
    listContainersReply : nat -> reply (list ContainerInfo) }.

(** ** The class *)

Module IChiaTestLedgerConstructorOptions.
Record t : Type :=
  { imageVersion : option string;
    imageName : option string;
    envVars : option (list string);
    emitContainerLogs : option bool;
    logLevel : option string }.
End IChiaTestLedgerConstructorOptions.
Module Opts := IChiaTestLedgerConstructorOptions.

Module DEFAULTS.
Definition imageName : string := "ghcr.io/hyperledger/chia-all-in-one".
Definition imageVersion : string := "v1.0.0".
Definition envVars : list string := [EmptyString].
End DEFAULTS.

Record ChiaTestLedger : Type :=
  { opts : Opts.t;
    envVars : list string;
    imageVersion : option string;
    imageName : option string;
    emitContainerLogs : bool;
    container : option Container;
    containerId : option string }.

Definition CLASS_NAME : string := "ChiaTestLedger".
Definition className (_ : ChiaTestLedger) : string := CLASS_NAME.

(** The state a method runs in: the object and the trace so far. *)
Record St : Type :=
  { this : ChiaTestLedger;
    trace : list event }.

(** How a piece of code ends: with a value, with a thrown exception,
    suspended for ever on a promise that never settles, or still running
    when the fuel of the health loop is used up. *)
Inductive outcome (A : Type) : Type :=
| Val (a : A)
| Exn (e : exn)
| Hang
| Fuel.
Arguments Exn {A} e.
Arguments Hang {A}.
Arguments Fuel {A}.

Definition M (A : Type) : Type := St -> outcome A * St.

Definition ret {A} (a : A) : M A := fun st => (Val a, st).

Definition throw {A} (e : exn) : M A := fun st => (Exn e, st).

Definition bind {A B} (m : M A) (k : A -> M B) : M B :=
  fun st =>
    match m st with
    | (Val a, st') => k a st'
    | (Exn e, st') => (Exn e, st')
    | (Hang, st') => (Hang, st')
    | (Fuel, st') => (Fuel, st')
    end.

Declare Scope js_scope.
Delimit Scope js_scope with js.
Notation "x <- m ;; k" := (bind m (fun x => k))
  (at level 61, m at next level, right associativity) : js_scope.
Notation "m ;; k" := (bind m (fun _ => k))
  (at level 61, right associativity) : js_scope.
Local Open Scope js_scope.

(** [await p]. *)
Definition await {A} (p : promise A) : M A :=
  fun st =>
    match p with
    | Fulfilled a => (Val a, st)
    | Rejected e => (Exn e, st)
    | Pending => (Hang, st)
    end.

(** [try { m } catch (ex) { h ex }]. *)
Definition try_catch {A} (m : M A) (h : exn -> M A) : M A :=
  fun st =>
    match m st with
    | (Exn e, st') => h e st'
    | r => r
    end.

(** The promise an [async] function returns for its body. *)
Definition async {A} (body : M A) : M (promise A) :=
  fun st =>
    match body st with
    | (Val a, st') => (Val (Fulfilled a), st')
    | (Exn e, st') => (Val (Rejected e), st')
    | (Hang, st') => (Val Pending, st')
    | (Fuel, st') => (Fuel, st')
    end.

Definition getThis : M ChiaTestLedger := fun st => (Val (this st), st).

Definition setContainer (c : Container) : M unit :=
  fun st =>
    let o := this st in
    (Val tt,
     {| this := {| opts := opts o; envVars := envVars o;
                   imageVersion := imageVersion o; imageName := imageName o;
                   emitContainerLogs := emitContainerLogs o;
                   container := Some c;
                   containerId := containerId o |};
        trace := trace st |}).

Definition setContainerId (i : string) : M unit :=
  fun st =>
    let o := this st in
    (Val tt,
     {| this := {| opts := opts o; envVars := envVars o;
                   imageVersion := imageVersion o; imageName := imageName o;
                   emitContainerLogs := emitContainerLogs o;
                   container := container o;
                   containerId := Some i |};
        trace := trace st |}).

(** Sending a request appends it, with the reply it gets, to the trace.
    Each request below looks its reply up in the script of the runtime by
    the number of earlier requests of the same kind. *)
Definition record (st : St) (e : event) : St :=
  {| this := this st; trace := (trace st ++ [e])%list |}.

(** ** Helpers of the repository that the class calls *)

Module Checks.

(** Modelled from the spec: [Checks.truthy] of cactus-common is not among
    the sources.  A missing or invalid option fails the construction
    (the spec's ConfigurationError): the check throws when the checked
    value is falsy and does nothing otherwise. *)
Definition truthy (checkResult : bool) (subject : string) : option exn :=
  if checkResult then None else Some (ChecksError subject).

(** Modelled from the spec: [Checks.nonBlankString] of cactus-common is not
    among the sources.  It fails when no string is recorded, unset or blank
    (the spec's NotStartedError for the container id), and does nothing
    otherwise. *)
Definition nonBlankString (value : option string) (subject : string)
  : option exn :=
  match value with
  | None => Some (ChecksError subject)
  | Some s => if trimsToEmpty s then Some (ChecksError subject) else None
  end.

End Checks.

Module Bools.

(** Modelled from the spec: [Bools.isBooleanStrict] of cactus-common is not
    among the sources.  Log forwarding can be enabled or disabled and is
    enabled by default: the test holds of the booleans [true] and [false]
    and fails of [undefined]. *)
Definition isBooleanStrict (v : option bool) : bool :=
  match v with Some _ => true | None => false end.

End Bools.

(** A check used as a statement. *)
Definition check (r : option exn) : M unit :=
  match r with
  | Some e => throw e
  | None => ret tt
  end.

(** The double quote character, for messages that quote a value. *)
Definition dquote : string := String (ascii_of_nat 34) EmptyString.

(** ** Construction *)

(** [constructor(opts)].  [opts] is an object and [this.envVars] an array by
    their types, so both [Checks.truthy] calls are applied to a truthy value.
    The call of [validateConstructorOptions()] is commented out in the
    source and is therefore not part of the constructor. *)
Definition new_ChiaTestLedger (o : Opts.t) : exn + ChiaTestLedger :=
  let fnTag := CLASS_NAME ++ "#constructor()" in
  match Checks.truthy true (fnTag ++ " options") with
  | Some e => inl e
  | None =>
      let imageVersion := or_string (Opts.imageVersion o) DEFAULTS.imageVersion in
      let imageName := or_string (Opts.imageName o) DEFAULTS.imageName in
      let emitContainerLogs :=
        if Bools.isBooleanStrict (Opts.emitContainerLogs o)
        then match Opts.emitContainerLogs o with Some b => b | None => true end
        else true in
      let envVars :=
        match Opts.envVars o with
        | Some l => l
        | None => DEFAULTS.envVars
        end in
      match Checks.truthy true (fnTag ++ ":envVars not an array") with
      | Some e => inl e
      | None =>
          inr {| opts := o;
                 envVars := envVars;
                 imageVersion := Some imageVersion;
                 imageName := Some imageName;
                 emitContainerLogs := emitContainerLogs;
                 container := None;
                 containerId := None |}
      end
  end.

(** [CHIA_TEST_LEDGER_OPTIONS_JOI_SCHEMA.validate({imageVersion, imageName})]:
    each key is [Joi.string().min(limit).required()], that is present, not
    the empty string and of at least [limit] characters. *)
Definition joi_string_min_required (key : string) (limit : nat)
           (v : option string) : option joi_error :=
  match v with
  | None => Some (any_required key)
  | Some EmptyString => Some (string_empty key)
  | Some s =>
      if Nat.ltb (String.length s) limit then Some (string_min key limit) else None
  end.

Definition CHIA_TEST_LEDGER_OPTIONS_JOI_SCHEMA_validate
           (imageVersion imageName : option string) : option joi_error :=
  match joi_string_min_required "imageVersion" 5 imageVersion with
  | Some e => Some e
  | None => joi_string_min_required "imageName" 1 imageName
  end.

(** ** Methods *)

Section Methods.

Variable rt : Runtime.

(** *** Requests to the runtime *)

(** [container.stop()]. *)
Definition Container_stop (c : Container) : M (promise unit) :=
  fun st =>
    let r := stopReply rt (count isStop (trace st)) c in
    (Val (promise_of r), record st (EStop c r)).

(** [container.remove()]. *)
Definition Container_remove (c : Container) : M (promise unit) :=
  fun st =>
    let r := removeReply rt (count isRemove (trace st)) c in
    (Val (promise_of r), record st (ERemove c r)).

(** [docker.run(image, cmd, [], createOptions, {}, callback)]; the value is
    what the runtime does with the request: invoke the callback with an
    error, emit "start" with the new container, or neither. *)
Definition Docker_run (image : string) (cmd : list string)
           (createOptions : ContainerCreateOptions) : M (reply Container) :=
  fun st =>
    let r := runReply rt (count isRun (trace st)) image in
    (Val r, record st (ERun image cmd createOptions r)).

(** [docker.listContainers({})]. *)
Definition Docker_listContainers : M (promise (list ContainerInfo)) :=
  fun st =>
    let r := listContainersReply rt (count isListContainers (trace st)) in
    (Val (promise_of r), record st (EListContainers r)).

(** [new Promise((resolve2) => setTimeout(resolve2, ms))]: the timer always
    fires. *)
Definition setTimeout_promise (ms : nat) : M (promise unit) :=
  fun st =>
    (Val (Fulfilled tt), record st (ESleep ms)).

(** Modelled from the spec: [Containers.streamLogs] of
    [../common/containers] is not among the sources.  The logger
    collaborator accepts a tag and a container reference and streams the
    combined output; it is an independent failure domain, so its promise
    settles as the script of the runtime says. *)
Definition Containers_streamLogs (c : Container) (tag : string)
  : M (promise unit) :=
  fun st =>
    let r := streamLogsReply rt (count isStreamLogs (trace st)) c in
    (Val (promise_of r), record st (EStreamLogs c tag r)).

(** Modelled from the spec: [Containers.stop] of [../common/containers] is
    not among the sources.  [stop()] issues a stop request to the runtime
    collaborator for the container it is given. *)
Definition Containers_stop (c : Container) : M (promise unit) :=
  Container_stop c.

(** *** Accessors *)

(** [getContainerId()]. *)
Definition getContainerId : M string :=
  o <- getThis ;;
  let fnTag := className o ++ ".getContainerId()" in
  check (Checks.nonBlankString (containerId o) (fnTag ++ "::containerId")) ;;
  match containerId o with
  | Some i => ret i
  | None => ret "undefined"
      (* [this.containerId as string]; not reached, the check has thrown *)
  end.

(** [getContainerImageName()]. *)
Definition getContainerImageName : M string :=
  o <- getThis ;;
  ret (template (imageName o) ++ ":" ++ template (imageVersion o)).

(** [getContainer()]. *)
Definition getContainer : M Container :=
  o <- getThis ;;
  let fnTag := className o ++ ".getContainer()" in
  match container o with
  | None => throw (Error (fnTag ++ " container not set on this instance yet."))
  | Some c => ret c
  end.

(** [getContainerInfo()]. *)
Definition getContainerInfo : M (promise ContainerInfo) :=
  async (
    o <- getThis ;;
    let fnTag := className o ++ ".getContainerInfo()" in
    containerInfos <- (p <- Docker_listContainers ;; await p) ;;
    id <- getContainerId ;;
    match find (fun ci => String.eqb (Id ci) id) containerInfos with
    | Some aContainerInfo => ret aContainerInfo
    | None =>
        throw (Error (fnTag ++ " no container with ID " ++ dquote ++ id ++ dquote))
    end).

(** [getContainerIpAddress()].  [aContainerInfo] is an object, hence truthy:
    the [else] branch of the outer [if] ("cannot find image") is never
    taken. *)
Definition getContainerIpAddress : M (promise string) :=
  async (
    let fnTag := "BesuTestLedger#getContainerIpAddress()" in
    aContainerInfo <- (p <- getContainerInfo ;; await p) ;;
    let networks := Networks (NetworkSettings aContainerInfo) in
    let networkNames := keys networks in
    if Nat.ltb (List.length networkNames) 1 then
      throw (Error (fnTag ++ " container not connected to any networks"))
    else
      (* [NetworkSettings.Networks[networkNames[0]].IPAddress]; reading a
         property of [undefined] is a TypeError *)
      match nth_error networkNames 0 with
      | Some name =>
          match get networks name with
          | Some info => ret (IPAddress info)
          | None => throw (Error "TypeError")
          end
      | None => throw (Error "TypeError")
      end).

(** *** Lifecycle *)

(** The health poll of [start()]:
    [do { ... } while (!isHealthy)], one unit of fuel per iteration.  The two
    [this.log.debug] calls only write to the local logger. *)
Fixpoint healthLoop (fuel : nat) : M unit :=
  match fuel with
  | O => fun st => (Fuel, st)
  | S fuel' =>
      containerInfo <- (p <- getContainerInfo ;; await p) ;;
      let isHealthy := endsWith (Status containerInfo) "(healthy)" in
      (if negb isHealthy
       then p <- setTimeout_promise 1000 ;; await p
       else ret tt) ;;
      if negb isHealthy then healthLoop fuel' else ret tt
  end.

(** The listener [start()] registers with [eventEmitter.once("start", ...)].
    Its value is what it did to the promise of [start()]: [resolve(container)]
    or [reject(ex)].  An exception that leaves the listener settles only the
    listener's own promise. *)
Definition onStart (fuel : nat) (container : Container)
  : M (promise Container) :=
  setContainer container ;;
  setContainerId (id container) ;;
  o <- getThis ;;
  (if emitContainerLogs o then
     imageFqn <- getContainerImageName ;;
     let fnTag := "[" ++ imageFqn ++ "]" in
     c <- getContainer ;;
     p <- Containers_streamLogs c fnTag ;;
     await p
   else ret tt) ;;
  try_catch
    (healthLoop fuel ;; ret (Fulfilled container))
    (fun ex => ret (Rejected ex)).

(** What becomes of the promise built by [new Promise(...)] in [start()] once
    the listener has run.  The listener is an [async] function called by an
    [EventEmitter], which drops the promise the listener returns: when the
    listener throws, or waits for ever, neither [resolve] nor [reject] has
    been called and the promise of [start()] stays pending. *)
Definition once (listener : M (promise Container)) : M (promise Container) :=
  fun st =>
    match listener st with
    | (Val p, st') => (Val p, st')
    | (Exn _, st') => (Val Pending, st')
    | (Hang, st') => (Val Pending, st')
    | (Fuel, st') => (Fuel, st')
    end.

(** An [async] function that returns a promise settles as that promise. *)
Definition adopt {A} (p : promise (promise A)) : promise A :=
  match p with
  | Fulfilled q => q
  | Rejected e => Rejected e
  | Pending => Pending
  end.

(** [start()].  Nothing else runs on the object between the two awaits of
    the clean-up, so [this.container] is read once. *)
Definition start (fuel : nat) : M (promise Container) :=
  p <- async (
    imageFqn <- getContainerImageName ;;
    o <- getThis ;;
    (match container o with
     | Some c =>
         (p <- Container_stop c ;; await p) ;;
         (p <- Container_remove c ;; await p)
     | None => ret tt
     end) ;;
    r <- Docker_run imageFqn []
           {| User := "root";
              ExposedPorts := ["22/tcp"];
              PublishAllPorts := true;
              Privileged := true;
              Env := envVars o |} ;;
    match r with
    | Reject err => ret (Rejected err)
    | Fulfil container => once (onStart fuel container)
    | Silent => ret Pending
    end) ;;
  ret (adopt p).

(** [stop()]: not an [async] function, so an exception of [getContainer()]
    is thrown to the caller. *)
Definition stop : M (promise unit) :=
  c <- getContainer ;;
  Containers_stop c.

(** [destroy()]. *)
Definition destroy : M (promise unit) :=
  o <- getThis ;;
  let fnTag := className o ++ ".destroy()" in
  match container o with
  | Some c => Container_remove c
  | None =>
      ret (Rejected
             (Error (fnTag ++ " Container was never created, nothing to destroy.")))
  end.

(** [validateConstructorOptions()]: private, and called from nowhere. *)
Definition validateConstructorOptions : M unit :=
  o <- getThis ;;
  match CHIA_TEST_LEDGER_OPTIONS_JOI_SCHEMA_validate
          (imageVersion o) (imageName o) with
  | Some error => throw (AnnotatedError "ChiaTestLedger#ctor" error)
  | None => ret tt
  end.

End Methods.

(** ** Sequences of calls on one handle *)

(** The public methods, as a caller can invoke them one after the other. *)
Inductive call : Type :=
| CallStart (fuel : nat)
| CallStop
| CallDestroy
| CallGetContainer
| CallGetContainerId
| CallGetContainerImageName
| CallGetContainerIpAddress.

(** The state a call leaves behind. *)
Definition after (rt : Runtime) (c : call) (st : St) : St :=
  match c with
  | CallStart fuel => snd (start rt fuel st)
  | CallStop => snd (stop rt st)
  | CallDestroy => snd (destroy rt st)
  | CallGetContainer => snd (getContainer st)
  | CallGetContainerId => snd (getContainerId st)
  | CallGetContainerImageName => snd (getContainerImageName st)
  | CallGetContainerIpAddress => snd (getContainerIpAddress rt st)
  end.

Definition afterAll (rt : Runtime) (cs : list call) (st : St) : St :=
  fold_left (fun s c => after rt c s) cs st.

(** The state right after construction. *)
Definition fresh (h : ChiaTestLedger) : St := {| this := h; trace := [] |}.

Definition isCallStart (c : call) : bool :=
  match c with CallStart _ => true | _ => false end.

(** The object once the "start" listener has recorded a container. *)
Definition recorded (h : ChiaTestLedger) (c : Container) : ChiaTestLedger :=
  {| opts := opts h; envVars := envVars h;
     imageVersion := imageVersion h; imageName := imageName h;
     emitContainerLogs := emitContainerLogs h;
     container := Some c;
     containerId := Some (id c) |}.

(** A run request answered by the "start" event. *)
Definition isStartEvent (e : event) : bool :=
  match e with ERun _ _ _ (Fulfil _) => true | _ => false end.

(** The recorded id is that of the recorded container, when there is one. *)
Definition idOfContainer (h : ChiaTestLedger) : Prop :=
  containerId h = option_map id (container h).

(** The requests the "start" listener sends. *)
Definition isPolling (e : event) : bool :=
  isStreamLogs e || isListContainers e || isSleep e.

(** The requests of one complete health poll whose first [n] queries find
    the container unhealthy and whose last query finds it healthy; [k] is
    the number of queries sent before the poll. *)
Fixpoint pollEvents (rt : Runtime) (k n : nat) : list event :=
  match n with
  | O => [EListContainers (listContainersReply rt k)]
  | S n' =>
      EListContainers (listContainersReply rt k) :: ESleep 1000
        :: pollEvents rt (S k) n'
  end.

(** The requests [start()] sends before the health poll when each of them
    succeeds: the clean-up of an earlier container, the run request and the
    log streaming. *)
Definition startPrelude (rt : Runtime) (st : St) (c : Container)
  : list event :=
  let fqn :=
    template (imageName (this st)) ++ ":" ++ template (imageVersion (this st))
  in
  (match container (this st) with
   | Some c0 => [EStop c0 (Fulfil tt); ERemove c0 (Fulfil tt)]
   | None => []
   end
   ++ [ERun fqn []
         {| User := "root"; ExposedPorts := ["22/tcp"];
            PublishAllPorts := true; Privileged := true;
            Env := envVars (this st) |}
         (Fulfil c)]
   ++ (if emitContainerLogs (this st)
       then [EStreamLogs c ("[" ++ fqn ++ "]") (Fulfil tt)]
       else []))%list.

(** ** Vocabulary of the statements *)

(** [extends allowed st st'] says that [st'] has the object of [st] and the
    trace of [st] followed by requests that all satisfy [allowed]; a
    computation is [quiet] when every run of it extends the state so. *)
Definition extends (allowed : event -> bool) (st st' : St) : Prop :=
  this st' = this st /\
  exists evs, trace st' = (trace st ++ evs)%list /\ forallb allowed evs = true.

Definition quiet {A} (allowed : event -> bool) (m : M A) : Prop :=
  forall st, extends allowed st (snd (m st)).

(** The part of [start()] from the run request on. *)
Definition launch (rt : Runtime) (fuel : nat) (st : St)
  : outcome (promise Container) * St :=
  let fqn :=
    template (imageName (this st)) ++ ":" ++ template (imageVersion (this st))
  in
  let r := runReply rt (count isRun (trace st)) fqn in
  let st1 :=
    record st
      (ERun fqn []
         {| User := "root"; ExposedPorts := ["22/tcp"];
            PublishAllPorts := true; Privileged := true;
            Env := envVars (this st) |} r) in
  match r with
  | Fulfil c => once (onStart rt fuel c) st1
  | Reject err => (Val (Rejected err), st1)
  | Silent => (Val Pending, st1)
  end.

(** The [try]/[catch] of the "start" listener around the health poll. *)
Definition poll (rt : Runtime) (fuel : nat) (c : Container)
  : M (promise Container) :=
  try_catch
    (healthLoop rt fuel ;; ret (Fulfilled c))
    (fun ex => ret (Rejected ex)).

(** The runtime reports the statuses [statuses 0], ..., [statuses (n - 1)]
    for the container [cid] on the [n] status queries that follow the first
    [k0] ones. *)
Definition reports (rt : Runtime) (k0 : nat) (cid : string)
           (statuses : nat -> string) (n : nat) : Prop :=
  forall k, k < n ->
    exists cis ci,
      listContainersReply rt (k0 + k) = Fulfil cis /\
      find (fun i => String.eqb (Id i) cid) cis = Some ci /\
      Status ci = statuses k.

(** This call of [start()] gets as far as the health poll of a new container
    [c]: the clean-up of an earlier container succeeds, the runtime answers
    the run request with the "start" event carrying [c], and the log
    streaming, when enabled, succeeds. *)
Definition reachesPoll (rt : Runtime) (st : St) (c : Container) : Prop :=
  match container (this st) with
  | Some c0 =>
      stopReply rt (count isStop (trace st)) c0 = Fulfil tt /\
      removeReply rt (count isRemove (trace st)) c0 = Fulfil tt
  | None => True
  end /\
  runReply rt (count isRun (trace st))
    (template (imageName (this st)) ++ ":" ++ template (imageVersion (this st)))
  = Fulfil c /\
  (emitContainerLogs (this st) = true ->
   streamLogsReply rt (count isStreamLogs (trace st)) c = Fulfil tt).

(** The subject [getContainerId()] passes to the non-blank check. *)
Definition getContainerId_subject : string :=
  "ChiaTestLedger.getContainerId()::containerId".

(** ** Test doubles

    Concrete options, containers and scripted runtimes on which the
    statements below are exercised. *)

Definition noOptions : Opts.t :=
  {| Opts.imageVersion := None; Opts.imageName := None;
     Opts.envVars := None; Opts.emitContainerLogs := None;
     Opts.logLevel := None |}.

Definition shortTagOptions : Opts.t :=
  {| Opts.imageVersion := Some "v1"; Opts.imageName := Some "chia";
     Opts.envVars := None; Opts.emitContainerLogs := None;
     Opts.logLevel := None |}.

(** The handle the constructor builds from defaults only. *)
Definition defaultLedger : ChiaTestLedger :=
  {| opts := noOptions;
     envVars := DEFAULTS.envVars;
     imageVersion := Some DEFAULTS.imageVersion;
     imageName := Some DEFAULTS.imageName;
     emitContainerLogs := true;
     container := None;
     containerId := None |}.

Definition aContainer : Container := {| id := "abc" |}.

Definition twoNetworks : list (string * NetworkInfo) :=
  [("bridge", {| IPAddress := "172.17.0.2" |});
   ("custom", {| IPAddress := "10.0.0.5" |})].

Definition infoOf (status : string) (networks : list (string * NetworkInfo))
  : ContainerInfo :=
  {| Id := "abc"; Status := status; State := "running";
     NetworkSettings := {| Networks := networks |} |}.

Definition threeStatuses (k : nat) : string :=
  nth k ["starting"; "starting"; "running (healthy)"] "exited".

(** A runtime that starts [aContainer], accepts every other request and
    reports the statuses of [statuses] on successive queries. *)
Definition scriptedRuntime (statuses : nat -> string)
           (networks : list (string * NetworkInfo)) : Runtime :=
  {| stopReply := fun _ _ => Fulfil tt;
     removeReply := fun _ _ => Fulfil tt;
     runReply := fun _ _ => Fulfil aContainer;
     streamLogsReply := fun _ _ => Fulfil tt;
     listContainersReply := fun k => Fulfil [infoOf (statuses k) networks] |}.

(** A runtime that starts [aContainer] and then loses the connection: every
    status query is rejected. *)
Definition lostConnectionRuntime : Runtime :=
  {| stopReply := fun _ _ => Fulfil tt;
     removeReply := fun _ _ => Fulfil tt;
     runReply := fun _ _ => Fulfil aContainer;
     streamLogsReply := fun _ _ => Fulfil tt;
     listContainersReply := fun _ => Reject (RuntimeError "connection lost") |}.

(** A runtime that starts [aContainer], always healthy, but whose log
    streaming fails. *)
Definition brokenLogsRuntime : Runtime :=
  {| stopReply := fun _ _ => Fulfil tt;
     removeReply := fun _ _ => Fulfil tt;
     runReply := fun _ _ => Fulfil aContainer;
     streamLogsReply := fun _ _ => Reject (RuntimeError "no log stream");
     listContainersReply :=
       fun _ => Fulfil [infoOf "Up 2 seconds (healthy)" twoNetworks] |}.

(** ** Vocabulary of the further statements *)

(** The fully-qualified image reference of the object. *)
Definition imageFqn (h : ChiaTestLedger) : string :=
  template (imageName h) ++ ":" ++ template (imageVersion h).

(** The create options of the run request, for the environment [env]. *)
Definition runCreateOptions (env : list string) : ContainerCreateOptions :=
  {| User := "root"; ExposedPorts := ["22/tcp"];
     PublishAllPorts := true; Privileged := true; Env := env |}.

(** The run request of a call of [start()] made in the state [st]. *)
Definition runRequest (rt : Runtime) (st : St) : event :=
  ERun (imageFqn (this st)) [] (runCreateOptions (envVars (this st)))
       (runReply rt (count isRun (trace st)) (imageFqn (this st))).

(** The requests [start()] sends before it polls. *)
Definition isBeforePoll (e : event) : bool :=
  isStop e || isRemove e || isRun e || isStreamLogs e.

(** The requests of the health poll. *)
Definition isQueryOrWait (e : event) : bool :=
  isListContainers e || isSleep e.

(** The requests of a poll come in this order: a status query; if it was
    answered with a listing, possibly a wait of 1000 ms and then the rest of
    the poll; nothing after a query that was not followed by a wait. *)
Fixpoint pollShape (evs : list event) : bool :=
  match evs with
  | [] => true
  | EListContainers r :: rest =>
      match rest with
      | [] => true
      | ESleep ms :: rest' =>
          match r with
          | Fulfil _ => Nat.eqb ms 1000 && pollShape rest'
          | _ => false
          end
      | _ => false
      end
  | _ => false
  end.

(** The requests of [n] status queries that found the container unhealthy,
    each followed by its wait; [k] is the number of queries sent before. *)
Fixpoint unhealthyEvents (rt : Runtime) (k n : nat) : list event :=
  match n with
  | O => []
  | S n' =>
      EListContainers (listContainersReply rt k) :: ESleep 1000
        :: unhealthyEvents rt (S k) n'
  end.

(** The error of [getContainerInfo()] for an id that is not listed. *)
Definition noContainerWithId (i : string) : exn :=
  Error ("ChiaTestLedger.getContainerInfo() no container with ID "
         ++ dquote ++ i ++ dquote).

(** The clean-up of the earlier container succeeds (or there is none). *)
Definition cleanUpSucceeds (rt : Runtime) (st : St) : Prop :=
  match container (this st) with
  | Some c0 =>
      stopReply rt (count isStop (trace st)) c0 = Fulfil tt /\
      removeReply rt (count isRemove (trace st)) c0 = Fulfil tt
  | None => True
  end.

(** The requests of a successful clean-up. *)
Definition cleanUpEvents (st : St) : list event :=
  match container (this st) with
  | Some c0 => [EStop c0 (Fulfil tt); ERemove c0 (Fulfil tt)]
  | None => []
  end.

(** The state in which the run request of [start()] is sent after a
    successful clean-up. *)
Definition afterCleanUp (st : St) : St :=
  {| this := this st; trace := (trace st ++ cleanUpEvents st)%list |}.

(** The promise of [start()] once the health poll has ended. *)
Definition settle (c : Container) (r : outcome unit * St)
  : outcome (promise Container) * St :=
  match r with
  | (Val _, s) => (Val (Fulfilled c), s)
  | (Exn e, s) => (Val (Rejected e), s)
  | (Hang, s) => (Val Pending, s)
  | (Fuel, s) => (Fuel, s)
  end.

(** The promise of a computation that awaited a request which was not
    fulfilled: rejected with the reason of the rejection, or pending for
    ever when no answer came. *)
Definition failure {A B} (r : reply A) : promise B :=
  match r with
  | Reject e => Rejected e
  | _ => Pending
  end.

Definition isFulfil {A} (r : reply A) : bool :=
  match r with Fulfil _ => true | _ => false end.

(** ** Further test doubles *)

Definition customOptions : Opts.t :=
  {| Opts.imageVersion := Some "v2.1.0"; Opts.imageName := Some "chia";
     Opts.envVars := Some ["A=1"; "B=2"; "A=1"];
     Opts.emitContainerLogs := Some false;
     Opts.logLevel := Some "DEBUG" |}.

Definition customLedger : ChiaTestLedger :=
  {| opts := customOptions;
     envVars := ["A=1"; "B=2"; "A=1"];
     imageVersion := Some "v2.1.0";
     imageName := Some "chia";
     emitContainerLogs := false;
     container := None;
     containerId := None |}.

(** A runtime that refuses to run the image. *)
Definition refusingRuntime : Runtime :=
  {| stopReply := fun _ _ => Fulfil tt;
     removeReply := fun _ _ => Fulfil tt;
     runReply := fun _ _ => Reject (RuntimeError "no such image");
     streamLogsReply := fun _ _ => Fulfil tt;
     listContainersReply := fun _ => Fulfil [] |}.

(** A runtime on which [aContainer] is healthy at once and can be stopped
    and removed once: the second stop request is rejected. *)
Definition stopOnceRuntime : Runtime :=
  {| stopReply :=
       fun k _ => match k with
                  | O => Fulfil tt
                  | S _ => Reject (RuntimeError "no such container")
                  end;
     removeReply := fun _ _ => Fulfil tt;
     runReply := fun _ _ => Fulfil aContainer;
     streamLogsReply := fun _ _ => Fulfil tt;
     listContainersReply :=
       fun _ => Fulfil [infoOf "Up 2 seconds (healthy)" twoNetworks] |}.

(** A runtime on which [aContainer] is unhealthy twice and then the
    connection is lost. *)
Definition flakyRuntime : Runtime :=
  {| stopReply := fun _ _ => Fulfil tt;
     removeReply := fun _ _ => Fulfil tt;
     runReply := fun _ _ => Fulfil aContainer;
     streamLogsReply := fun _ _ => Fulfil tt;
     listContainersReply :=
       fun k => match k with
                | O | S O => Fulfil [infoOf "Up 1 second (health: starting)"
                                            twoNetworks]
                | _ => Reject (RuntimeError "connection lost")
                end |}.

(** A runtime on which the started container disappears from the listing
    after one unhealthy report. *)
Definition vanishingRuntime : Runtime :=
  {| stopReply := fun _ _ => Fulfil tt;
     removeReply := fun _ _ => Fulfil tt;
     runReply := fun _ _ => Fulfil aContainer;
     streamLogsReply := fun _ _ => Fulfil tt;
     listContainersReply :=
       fun k => match k with
                | O => Fulfil [infoOf "Up 1 second (health: starting)"
                                      twoNetworks]
                | _ => Fulfil []
                end |}.

(** * Properties *)

(** ** Counting requests *)

Lemma count_app (p : event -> bool) (t u : list event) :
  count p (t ++ u) = count p t + count p u.
Proof.
  unfold count. now rewrite filter_app, length_app.
Qed.

Lemma count_record (p : event -> bool) (st : St) (e : event) :
  count p (trace (record st e)) =
  count p (trace st) + (if p e then 1 else 0).
Proof.
  unfold record; simpl. rewrite count_app. unfold count; simpl.
  now destruct (p e).
Qed.

Lemma count_pollEvents_queries (rt : Runtime) (n k : nat) :
  count isListContainers (pollEvents rt k n) = S n.
Proof.
  revert k. induction n as [|n IH]; intro k; simpl.
  - reflexivity.
  - change (S (count isListContainers (pollEvents rt (S k) n)) = S (S n)).
    now rewrite IH.
Qed.

Lemma count_pollEvents_waits (rt : Runtime) (n k : nat) :
  count (isSleepOf 1000) (pollEvents rt k n) = n.
Proof.
  revert k. induction n as [|n IH]; intro k.
  - reflexivity.
  - change (S (count (isSleepOf 1000) (pollEvents rt (S k) n)) = S n).
    now rewrite IH.
Qed.

(** ** Strings *)

Lemma or_string_nonempty (a : option string) (d : string) :
  d <> EmptyString -> or_string a d <> EmptyString.
Proof.
  intro Hd. destruct a as [[|c s]|]; simpl; try assumption. discriminate.
Qed.

Lemma or_string_given (s d : string) :
  s <> EmptyString -> or_string (Some s) d = s.
Proof.
  destruct s; [intro H; now elim H | reflexivity].
Qed.

(** [endsWith] is the suffix test. *)
Lemma substring_all (s : string) : substring 0 (String.length s) s = s.
Proof.
  induction s as [|c s IH]; simpl; [reflexivity | now rewrite IH].
Qed.

Lemma substring_skip_prefix (p s : string) :
  substring (String.length p) (String.length s) (p ++ s) = s.
Proof.
  induction p as [|c p IH]; simpl; [apply substring_all | exact IH].
Qed.

Lemma length_append (p s : string) :
  String.length (p ++ s) = String.length p + String.length s.
Proof.
  induction p as [|c p IH]; simpl; [reflexivity | now rewrite IH].
Qed.

Lemma substring_split (s : string) :
  forall k, k <= String.length s ->
    s = substring 0 k s ++ substring k (String.length s - k) s.
Proof.
  induction s as [|c s IH]; intros k Hk.
  - destruct k; reflexivity.
  - destruct k as [|k]; simpl.
    + now rewrite substring_all.
    + simpl in Hk. rewrite <- IH by lia. reflexivity.
Qed.

Lemma endsWith_iff (s suffix : string) :
  endsWith s suffix = true <-> exists p, s = p ++ suffix.
Proof.
  unfold endsWith. split.
  - intro H. apply andb_prop in H as [Hlen Heq].
    apply Nat.leb_le in Hlen. apply String.eqb_eq in Heq.
    exists (substring 0 (String.length s - String.length suffix) s).
    rewrite (@substring_split s (String.length s - String.length suffix))
      at 1 by lia.
    f_equal.
    replace (String.length s - (String.length s - String.length suffix))
      with (String.length suffix) by lia.
    exact Heq.
  - intros [p ->]. rewrite length_append.
    replace (String.length p + String.length suffix - String.length suffix)
      with (String.length p) by lia.
    rewrite substring_skip_prefix, String.eqb_refl, andb_true_r.
    apply Nat.leb_le. lia.
Qed.

(** ** The [async]/[await] pair *)

(** Awaiting the promise of an [async] body is running the body. *)
Lemma await_async {A} (body : M A) (st : St) :
  (p <- async body ;; await p) st = body st.
Proof.
  unfold bind, async, await. destruct (body st) as [[a|e| |] st']; reflexivity.
Qed.

(** ** Construction *)

(** The constructor accepts every options object. *)
Lemma new_ChiaTestLedger_total (o : Opts.t) :
  new_ChiaTestLedger o =
  inr {| opts := o;
         envVars := match Opts.envVars o with
                    | Some l => l
                    | None => DEFAULTS.envVars
                    end;
         imageVersion :=
           Some (or_string (Opts.imageVersion o) DEFAULTS.imageVersion);
         imageName := Some (or_string (Opts.imageName o) DEFAULTS.imageName);
         emitContainerLogs := match Opts.emitContainerLogs o with
                              | Some b => b
                              | None => true
                              end;
         container := None;
         containerId := None |}.
Proof.
  unfold new_ChiaTestLedger; simpl.
  destruct (Opts.emitContainerLogs o); reflexivity.
Qed.

(** C8, as the code has it.  The constructor accepts every options object;
    the tag of the handle is never empty: it is the fixed default when the
    option is absent or the empty string, and otherwise the option itself,
    whatever its length (the constructor does not run the schema check). *)
Theorem constructor_tag_nonempty_unchecked (o : Opts.t) :
  exists h tag,
    new_ChiaTestLedger o = inr h /\
    imageVersion h = Some tag /\
    tag <> EmptyString /\
    (Opts.imageVersion o = None -> tag = DEFAULTS.imageVersion) /\
    (Opts.imageVersion o = Some EmptyString -> tag = DEFAULTS.imageVersion) /\
    (forall s, Opts.imageVersion o = Some s -> s <> EmptyString -> tag = s).
Proof.
  rewrite new_ChiaTestLedger_total.
  eexists; exists (or_string (Opts.imageVersion o) DEFAULTS.imageVersion).
  split; [reflexivity|]. split; [reflexivity|].
  split; [apply or_string_nonempty; discriminate|].
  repeat split.
  - intros ->; reflexivity.
  - intros ->; reflexivity.
  - intros s -> Hs. now apply or_string_given.
Qed.

Lemma constructor_tag_nonempty_unchecked_witness :
  exists h,
    new_ChiaTestLedger shortTagOptions = inr h /\ imageVersion h = Some "v1".
Proof.
  destruct (constructor_tag_nonempty_unchecked shortTagOptions)
    as (h & tag & Hnew & Htag & _ & _ & _ & Hkeep).
  exists h. split; [exact Hnew|].
  rewrite Htag. f_equal. apply Hkeep; [reflexivity | discriminate].
Defined.

(** C8, as stated, fails: an explicit tag of two characters, below the
    minimum of five of the schema, is accepted by the constructor and kept;
    the schema check, had it been run on the handle, would have thrown. *)
Lemma constructor_accepts_short_tag :
  Opts.imageVersion shortTagOptions = Some "v1" /\
  String.length "v1" < 5 /\
  exists h,
    new_ChiaTestLedger shortTagOptions = inr h /\
    imageVersion h = Some "v1" /\
    fst (validateConstructorOptions (fresh h)) =
    Exn (AnnotatedError "ChiaTestLedger#ctor" (string_min "imageVersion" 5)).
Proof.
  split; [reflexivity|]. split; [simpl; lia|].
  eexists. split; [reflexivity|]. split; reflexivity.
Qed.

(** ** Framing: what a computation may touch *)

Section Frame.

Variable allowed : event -> bool.

Lemma extends_refl (st : St) : extends allowed st st.
Proof.
  split; [reflexivity|]. exists []. now rewrite app_nil_r.
Qed.

Lemma extends_trans (s1 s2 s3 : St) :
  extends allowed s1 s2 -> extends allowed s2 s3 -> extends allowed s1 s3.
Proof.
  intros [Ht1 (e1 & He1 & Ha1)] [Ht2 (e2 & He2 & Ha2)].
  split; [congruence|].
  exists (e1 ++ e2)%list. split.
  - now rewrite He2, He1, app_assoc.
  - rewrite forallb_app, Ha1, Ha2. reflexivity.
Qed.

Lemma extends_record (st : St) (e : event) :
  allowed e = true -> extends allowed st (record st e).
Proof.
  intro He. split; [reflexivity|]. exists [e]. split; [reflexivity|].
  simpl. now rewrite He.
Qed.

Lemma quiet_pure {A} (m : M A) :
  (forall st, snd (m st) = st) -> quiet allowed m.
Proof.
  intros H st. rewrite H. apply extends_refl.
Qed.

Lemma quiet_ret {A} (a : A) : quiet allowed (ret a).
Proof. intro st. apply extends_refl. Qed.

Lemma quiet_throw {A} (e : exn) : quiet allowed (@throw A e).
Proof. intro st. apply extends_refl. Qed.

Lemma quiet_await {A} (p : promise A) : quiet allowed (await p).
Proof. intro st. destruct p; apply extends_refl. Qed.

Lemma quiet_getThis : quiet allowed getThis.
Proof. intro st. apply extends_refl. Qed.

Lemma quiet_check (r : option exn) : quiet allowed (check r).
Proof. intro st. destruct r; apply extends_refl. Qed.

Lemma quiet_bind {A B} (m : M A) (k : A -> M B) :
  quiet allowed m -> (forall a, quiet allowed (k a)) ->
  quiet allowed (bind m k).
Proof.
  intros Hm Hk st. unfold bind.
  specialize (Hm st). destruct (m st) as [[a|e| |] st1]; simpl in *;
    try assumption.
  eapply extends_trans; [exact Hm | apply Hk].
Qed.

Lemma quiet_try_catch {A} (m : M A) (h : exn -> M A) :
  quiet allowed m -> (forall e, quiet allowed (h e)) ->
  quiet allowed (try_catch m h).
Proof.
  intros Hm Hh st. unfold try_catch.
  specialize (Hm st). destruct (m st) as [[a|e| |] st1]; simpl in *;
    try assumption.
  eapply extends_trans; [exact Hm | apply Hh].
Qed.

Lemma quiet_async {A} (m : M A) : quiet allowed m -> quiet allowed (async m).
Proof.
  intros Hm st. unfold async.
  specialize (Hm st). destruct (m st) as [[a|e| |] st1]; exact Hm.
Qed.

Lemma quiet_once (m : M (promise Container)) :
  quiet allowed m -> quiet allowed (once m).
Proof.
  intros Hm st. unfold once.
  specialize (Hm st). destruct (m st) as [[a|e| |] st1]; exact Hm.
Qed.

End Frame.

Lemma extends_weaken (a b : event -> bool) (st st' : St) :
  (forall e, a e = true -> b e = true) ->
  extends a st st' -> extends b st st'.
Proof.
  intros Hab [Ht (evs & He & Ha)]. split; [exact Ht|].
  exists evs. split; [exact He|].
  rewrite forallb_forall in *. auto.
Qed.

Lemma quiet_weaken {A} (a b : event -> bool) (m : M A) :
  (forall e, a e = true -> b e = true) -> quiet a m -> quiet b m.
Proof.
  intros Hab Hm st. eapply extends_weaken; [exact Hab | apply Hm].
Qed.

(** *** The accessors leave the state alone *)

Lemma getContainerId_state (st : St) : snd (getContainerId st) = st.
Proof.
  unfold getContainerId, bind, getThis, check, Checks.nonBlankString.
  destruct (containerId (this st)) as [i|]; simpl; [|reflexivity].
  destruct (trimsToEmpty i); reflexivity.
Qed.

Lemma getContainerImageName_state (st : St) :
  snd (getContainerImageName st) = st.
Proof. reflexivity. Qed.

Lemma getContainer_state (st : St) : snd (getContainer st) = st.
Proof.
  unfold getContainer, bind, getThis; simpl.
  destruct (container (this st)); reflexivity.
Qed.

(** *** The requests each method sends *)

Section Requests.

Variable rt : Runtime.

Lemma quiet_Container_stop (c : Container) :
  quiet isStop (Container_stop rt c).
Proof. intro st. now apply extends_record. Qed.

Lemma quiet_Container_remove (c : Container) :
  quiet isRemove (Container_remove rt c).
Proof. intro st. now apply extends_record. Qed.

Lemma quiet_Docker_listContainers :
  quiet isListContainers (Docker_listContainers rt).
Proof. intro st. now apply extends_record. Qed.

Lemma quiet_setTimeout_promise (ms : nat) :
  quiet isSleep (setTimeout_promise ms).
Proof. intro st. now apply extends_record. Qed.

Lemma quiet_Containers_streamLogs (c : Container) (tag : string) :
  quiet isStreamLogs (Containers_streamLogs rt c tag).
Proof. intro st. now apply extends_record. Qed.

Lemma quiet_getContainerInfo :
  quiet isListContainers (getContainerInfo rt).
Proof.
  unfold getContainerInfo.
  apply quiet_async, quiet_bind; [apply quiet_getThis|]. intro o.
  apply quiet_bind.
  - apply quiet_bind; [apply quiet_Docker_listContainers|].
    intro p. apply quiet_await.
  - intro cis. apply quiet_bind.
    + apply quiet_pure, getContainerId_state.
    + intro i. destruct (find _ cis); [apply quiet_ret | apply quiet_throw].
Qed.

Lemma quiet_getContainerIpAddress :
  quiet isListContainers (getContainerIpAddress rt).
Proof.
  unfold getContainerIpAddress.
  apply quiet_async, quiet_bind.
  - apply quiet_bind; [apply quiet_getContainerInfo|].
    intro p. apply quiet_await.
  - intro ci. destruct (Nat.ltb _ 1); [apply quiet_throw|].
    destruct (nth_error _ 0); [|apply quiet_throw].
    destruct (get _ _); [apply quiet_ret | apply quiet_throw].
Qed.

Lemma quiet_healthLoop (fuel : nat) : quiet isPolling (healthLoop rt fuel).
Proof.
  induction fuel as [|fuel IH]; simpl.
  - intro st. apply extends_refl.
  - apply quiet_bind.
    + apply quiet_weaken with (a := isListContainers).
      * intros e He. unfold isPolling. rewrite He. now rewrite orb_true_r.
      * apply quiet_bind; [apply quiet_getContainerInfo|].
        intro p. apply quiet_await.
    + intro ci. apply quiet_bind.
      * destruct (negb _); [|apply quiet_ret].
        apply quiet_weaken with (a := isSleep).
        -- intros e He. unfold isPolling. rewrite He. now rewrite orb_true_r.
        -- apply quiet_bind; [apply quiet_setTimeout_promise|].
           intro p. apply quiet_await.
      * intros _. destruct (negb _); [exact IH | apply quiet_ret].
Qed.

Lemma quiet_stop : quiet isStop (stop rt).
Proof.
  unfold stop. apply quiet_bind.
  - apply quiet_pure, getContainer_state.
  - intro c. apply quiet_Container_stop.
Qed.

Lemma quiet_destroy : quiet isRemove (destroy rt).
Proof.
  unfold destroy. apply quiet_bind; [apply quiet_getThis|]. intro o.
  destruct (container o); [apply quiet_Container_remove | apply quiet_ret].
Qed.

End Requests.

(** ** The shape of [start()] *)

(** Requests of another kind do not shift the index of the next reply. *)
Ltac skip_other_requests :=
  rewrite !count_app; cbn -[onStart]; rewrite !Nat.add_0_r.

Section Start.

Variable rt : Runtime.

(** [start()] unfolded: the clean-up of an earlier container, each step
    awaited, then the launch. *)
Lemma start_unfold (fuel : nat) (st : St) :
  start rt fuel st =
  match container (this st) with
  | None => launch rt fuel st
  | Some c0 =>
      let r1 := stopReply rt (count isStop (trace st)) c0 in
      let st1 := record st (EStop c0 r1) in
      match r1 with
      | Fulfil _ =>
          let r2 := removeReply rt (count isRemove (trace st)) c0 in
          let st2 := record st1 (ERemove c0 r2) in
          match r2 with
          | Fulfil _ => launch rt fuel st2
          | Reject e => (Val (Rejected e), st2)
          | Silent => (Val Pending, st2)
          end
      | Reject e => (Val (Rejected e), st1)
      | Silent => (Val Pending, st1)
      end
  end.
Proof.
  destruct st as [h t].
  unfold start, launch, bind, async, once, record.
  cbn -[onStart count].
  destruct (container h) as [c0|]; cbn -[onStart count].
  - destruct (stopReply rt (count isStop t) c0) as [[]|e|];
      cbn -[onStart count]; try reflexivity.
    skip_other_requests.
    destruct (removeReply rt (count isRemove t) c0) as [[]|e|];
      cbn -[onStart count]; try reflexivity.
    skip_other_requests.
    destruct (runReply rt _ _) as [c|e|]; cbn -[onStart count];
      try reflexivity.
    destruct (onStart rt fuel c _) as [[p|e| |] st']; reflexivity.
  - destruct (runReply rt _ _) as [c|e|]; cbn -[onStart count];
      try reflexivity.
    destruct (onStart rt fuel c _) as [[p|e| |] st']; reflexivity.
Qed.

(** The "start" listener unfolded: the two fields are recorded, the logs are
    streamed when enabled, outside the [try], and then comes the poll. *)
Lemma onStart_unfold (fuel : nat) (c : Container) (st : St) :
  onStart rt fuel c st =
  let st0 := {| this := recorded (this st) c; trace := trace st |} in
  if emitContainerLogs (this st) then
    let fqn :=
      template (imageName (this st)) ++ ":" ++ template (imageVersion (this st))
    in
    let r := streamLogsReply rt (count isStreamLogs (trace st)) c in
    let st1 := record st0 (EStreamLogs c ("[" ++ fqn ++ "]") r) in
    match r with
    | Fulfil _ => poll rt fuel c st1
    | Reject e => (Exn e, st1)
    | Silent => (Hang, st1)
    end
  else poll rt fuel c st0.
Proof.
  destruct st as [h t].
  unfold onStart, bind, record, recorded.
  cbn -[poll count].
  destruct (emitContainerLogs h); cbn -[poll count].
  - destruct (streamLogsReply rt (count isStreamLogs t) c) as [[]|e|];
      reflexivity.
  - reflexivity.
Qed.

Lemma poll_unfold (fuel : nat) (c : Container) (st : St) :
  poll rt fuel c st =
  match healthLoop rt fuel st with
  | (Val _, st') => (Val (Fulfilled c), st')
  | (Exn e, st') => (Val (Rejected e), st')
  | (Hang, st') => (Hang, st')
  | (Fuel, st') => (Fuel, st')
  end.
Proof.
  unfold poll, try_catch, bind.
  destruct (healthLoop rt fuel st) as [[[]|e| |] st']; reflexivity.
Qed.

(** One status query that finds the container. *)
Lemma getContainerInfo_found (st : St) (cid : string)
      (cis : list ContainerInfo) (ci : ContainerInfo) :
  containerId (this st) = Some cid ->
  trimsToEmpty cid = false ->
  listContainersReply rt (count isListContainers (trace st)) = Fulfil cis ->
  find (fun i => String.eqb (Id i) cid) cis = Some ci ->
  (p <- getContainerInfo rt ;; await p) st =
  (Val ci, record st (EListContainers (Fulfil cis))).
Proof.
  intros Hid Hblank Hreply Hfind.
  unfold getContainerInfo. rewrite await_async.
  destruct st as [h t]. simpl in *.
  unfold bind, Docker_listContainers, getContainerId, getThis, check,
    Checks.nonBlankString.
  cbn -[count]. rewrite Hreply. cbn -[count].
  rewrite Hid, Hblank. cbn -[count]. rewrite Hfind. reflexivity.
Qed.

(** One iteration of the health poll. *)
Lemma healthLoop_step (fuel : nat) (st : St) (cid : string)
      (cis : list ContainerInfo) (ci : ContainerInfo) :
  containerId (this st) = Some cid ->
  trimsToEmpty cid = false ->
  listContainersReply rt (count isListContainers (trace st)) = Fulfil cis ->
  find (fun i => String.eqb (Id i) cid) cis = Some ci ->
  healthLoop rt (S fuel) st =
  let st1 := record st (EListContainers (Fulfil cis)) in
  if endsWith (Status ci) "(healthy)"
  then (Val tt, st1)
  else healthLoop rt fuel (record st1 (ESleep 1000)).
Proof.
  intros Hid Hblank Hreply Hfind.
  change (healthLoop rt (S fuel)) with
    (containerInfo <- (p <- getContainerInfo rt ;; await p) ;;
     let isHealthy := endsWith (Status containerInfo) "(healthy)" in
     (if negb isHealthy
      then p <- setTimeout_promise 1000 ;; await p
      else ret tt) ;;
     if negb isHealthy then healthLoop rt fuel else ret tt).
  unfold bind at 1.
  rewrite (getContainerInfo_found st Hid Hblank Hreply Hfind).
  cbv zeta. destruct (endsWith (Status ci) "(healthy)"); reflexivity.
Qed.

Lemma reports_shift (k0 : nat) (cid : string) (statuses : nat -> string)
      (n : nat) :
  reports rt k0 cid statuses (S n) ->
  reports rt (S k0) cid (fun k => statuses (S k)) n.
Proof.
  intros H k Hk. destruct (H (S k)) as (cis & ci & Hr & Hf & Hs); [lia|].
  exists cis, ci. rewrite <- Hr. repeat split; try assumption.
  f_equal. lia.
Qed.

(** The poll ends at the first healthy status, after [n] unhealthy ones. *)
Lemma healthLoop_resolves (n : nat) :
  forall (statuses : nat -> string) (st : St) (fuel : nat) (cid : string),
    containerId (this st) = Some cid ->
    trimsToEmpty cid = false ->
    reports rt (count isListContainers (trace st)) cid statuses (S n) ->
    (forall k, k < n -> endsWith (statuses k) "(healthy)" = false) ->
    endsWith (statuses n) "(healthy)" = true ->
    n < fuel ->
    healthLoop rt fuel st =
    (Val tt,
     {| this := this st;
        trace :=
          (trace st ++ pollEvents rt (count isListContainers (trace st)) n)%list
     |}).
Proof.
  induction n as [|n IH]; intros statuses st fuel cid Hid Hblank Hrep Hun Hok Hf.
  - destruct fuel as [|fuel]; [lia|].
    destruct (Hrep 0) as (cis & ci & Hr & Hfind & Hs); [lia|].
    rewrite Nat.add_0_r in Hr.
    rewrite (healthLoop_step fuel st Hid Hblank Hr Hfind).
    cbv zeta. rewrite Hs, Hok. simpl. rewrite Hr. reflexivity.
  - destruct fuel as [|fuel]; [lia|].
    destruct (Hrep 0) as (cis & ci & Hr & Hfind & Hs); [lia|].
    rewrite Nat.add_0_r in Hr.
    rewrite (healthLoop_step fuel st Hid Hblank Hr Hfind).
    cbv zeta. rewrite Hs, (Hun 0) by lia.
    set (st2 := record (record st (EListContainers (Fulfil cis))) (ESleep 1000)).
    assert (Hk : count isListContainers (trace st2) =
                 S (count isListContainers (trace st))).
    { unfold st2. rewrite !count_record. simpl. lia. }
    rewrite (IH (fun k => statuses (S k)) st2 fuel cid); try assumption.
    + rewrite Hk. simpl. rewrite Hr. unfold st2, record; simpl.
      now rewrite <- !app_assoc.
    + rewrite Hk. now apply reports_shift.
    + intros k Hlt. apply Hun. lia.
    + lia.
Qed.

(** As long as the statuses are unhealthy the poll goes on: with fuel for
    [fuel] iterations it has sent [fuel] queries, waited [fuel] times and is
    still running. *)
Lemma healthLoop_goes_on (fuel : nat) :
  forall (statuses : nat -> string) (st : St) (cid : string),
    containerId (this st) = Some cid ->
    trimsToEmpty cid = false ->
    reports rt (count isListContainers (trace st)) cid statuses fuel ->
    (forall k, k < fuel -> endsWith (statuses k) "(healthy)" = false) ->
    exists st',
      healthLoop rt fuel st = (Fuel, st') /\
      this st' = this st /\
      count isListContainers (trace st') =
      count isListContainers (trace st) + fuel /\
      count (isSleepOf 1000) (trace st') =
      count (isSleepOf 1000) (trace st) + fuel.
Proof.
  induction fuel as [|fuel IH]; intros statuses st cid Hid Hblank Hrep Hun.
  - exists st. simpl. repeat split; lia.
  - destruct (Hrep 0) as (cis & ci & Hr & Hfind & Hs); [lia|].
    rewrite Nat.add_0_r in Hr.
    rewrite (healthLoop_step fuel st Hid Hblank Hr Hfind).
    cbv zeta. rewrite Hs, (Hun 0) by lia.
    set (st2 := record (record st (EListContainers (Fulfil cis))) (ESleep 1000)).
    assert (Hk : count isListContainers (trace st2) =
                 S (count isListContainers (trace st))).
    { unfold st2. rewrite !count_record. simpl. lia. }
    assert (Hw : count (isSleepOf 1000) (trace st2) =
                 S (count (isSleepOf 1000) (trace st))).
    { unfold st2. rewrite !count_record. simpl. lia. }
    destruct (IH (fun k => statuses (S k)) st2 cid) as (st' & He & Ht & Hq & Hs').
    + exact Hid.
    + exact Hblank.
    + rewrite Hk. now apply reports_shift.
    + intros k Hlt. apply Hun. lia.
    + exists st'. split; [exact He|]. split; [exact Ht|]. split; lia.
Qed.

Lemma count_startPrelude (p : event -> bool) (st : St) (c : Container) :
  (forall e, isPolling e = false -> p e = false) ->
  (forall e, isStreamLogs e = true -> p e = false) ->
  count p (startPrelude rt st c) = 0.
Proof.
  intros Hnp Hlogs. unfold startPrelude.
  rewrite !count_app.
  destruct (container (this st)); destruct (emitContainerLogs (this st));
    unfold count; simpl;
    rewrite ?(Hnp (EStop _ _)), ?(Hnp (ERemove _ _)), ?(Hnp (ERun _ _ _ _)),
      ?(Hlogs (EStreamLogs _ _ _)) by reflexivity; reflexivity.
Qed.

(** Up to the poll, a call of [start()] that gets that far sends exactly the
    requests of [startPrelude]. *)
Lemma start_reaches_poll (fuel : nat) (st : St) (c : Container) :
  reachesPoll rt st c ->
  start rt fuel st =
  once (poll rt fuel c)
    {| this := recorded (this st) c;
       trace := (trace st ++ startPrelude rt st c)%list |}.
Proof.
  intros (Hclean & Hrun & Hlogs).
  rewrite start_unfold. unfold startPrelude.
  destruct st as [h t]. simpl in *.
  destruct (container h) as [c0|] eqn:Hc.
  - destruct Hclean as [Hstop Hremove]. rewrite Hstop, Hremove. cbv zeta.
    unfold launch. rewrite !count_record. simpl. rewrite !Nat.add_0_r.
    rewrite Hrun. unfold once at 1. rewrite onStart_unfold. simpl.
    unfold recorded; simpl. rewrite ?Hc.
    destruct (emitContainerLogs h).
    + rewrite !count_app. simpl. rewrite !Nat.add_0_r.
      rewrite (Hlogs eq_refl). unfold once, record. simpl.
      now rewrite <- !app_assoc.
    + unfold once. simpl. now rewrite <- !app_assoc.
  - unfold launch. simpl. rewrite Hrun.
    unfold once at 1. rewrite onStart_unfold. simpl.
    unfold recorded; simpl. rewrite ?Hc.
    destruct (emitContainerLogs h).
    + rewrite !count_app. simpl. rewrite !Nat.add_0_r.
      rewrite (Hlogs eq_refl). unfold once, record. simpl.
      now rewrite <- !app_assoc.
    + unfold once. simpl. reflexivity.
Qed.

End Start.

(** ** Health polling *)

Lemma count_queries_prelude (rt : Runtime) (st : St) (c : Container) :
  count isListContainers (trace st ++ startPrelude rt st c) =
  count isListContainers (trace st).
Proof.
  rewrite count_app, count_startPrelude; [lia| |].
  - now intros [].
  - now intros [].
Qed.

(** C1.  Take a call of [start()] that gets as far as the health poll of a
    container [c] with a non-blank id, on a runtime that reports the statuses
    [statuses 0], [statuses 1], ... on the successive status queries.

    If the [n]-th status is the first that ends with "(healthy)", then
    [start()], given fuel for at least [n] iterations, resolves with [c];
    after the requests that precede the poll it has sent exactly the
    requests of [pollEvents]: [n] queries, each unhealthy one followed by a
    wait of 1000 ms and the healthy one by nothing, hence [n - 1] waits.
    With fuel for fewer than [n] iterations it is still polling.

    If no status ends with "(healthy)", [start()] is still polling whatever
    the fuel: after [fuel] iterations it has sent [fuel] queries and has not
    settled. *)
Theorem start_health_polling (rt : Runtime) (st : St) (c : Container)
        (statuses : nat -> string) :
  reachesPoll rt st c ->
  trimsToEmpty (id c) = false ->
  let k0 := count isListContainers (trace st) in
  (forall n,
      1 <= n ->
      reports rt k0 (id c) statuses n ->
      (forall k, k < n - 1 -> endsWith (statuses k) "(healthy)" = false) ->
      endsWith (statuses (n - 1)) "(healthy)" = true ->
      (forall fuel, n <= fuel ->
         exists st',
           start rt fuel st = (Val (Fulfilled c), st') /\
           container (this st') = Some c /\
           trace st' =
           (trace st ++ startPrelude rt st c ++ pollEvents rt k0 (n - 1))%list /\
           count isListContainers (startPrelude rt st c) = 0 /\
           count isSleep (startPrelude rt st c) = 0 /\
           count isListContainers (pollEvents rt k0 (n - 1)) = n /\
           count (isSleepOf 1000) (pollEvents rt k0 (n - 1)) = n - 1) /\
      (forall fuel, fuel < n -> fst (start rt fuel st) = Fuel)) /\
  ((forall n, reports rt k0 (id c) statuses n) ->
   (forall k, endsWith (statuses k) "(healthy)" = false) ->
   forall fuel,
     exists st',
       start rt fuel st = (Fuel, st') /\
       count isListContainers (trace st') = k0 + fuel).
Proof.
  intros Hreach Hblank k0.
  set (st0 := {| this := recorded (this st) c;
                 trace := (trace st ++ startPrelude rt st c)%list |}).
  assert (Hk0 : count isListContainers (trace st0) = k0)
    by apply count_queries_prelude.
  assert (Hid : containerId (this st0) = Some (id c)) by reflexivity.
  split.
  - intros n Hn Hrep Hun Hok. split.
    + intros fuel Hfuel.
      assert (Hloop : healthLoop rt fuel st0 =
                      (Val tt,
                       {| this := this st0;
                          trace := (trace st0 ++ pollEvents rt k0 (n - 1))%list |})).
      { rewrite <- Hk0.
        apply healthLoop_resolves with (statuses := statuses) (cid := id c);
          try assumption; try lia.
        rewrite Hk0. replace (S (n - 1)) with n by lia. exact Hrep. }
      exists {| this := this st0;
                trace := (trace st0 ++ pollEvents rt k0 (n - 1))%list |}.
      split; [|split; [|split; [|split; [|split; [|split]]]]].
      * rewrite (start_reaches_poll fuel Hreach). fold st0.
        unfold once. rewrite poll_unfold, Hloop. reflexivity.
      * reflexivity.
      * unfold st0. simpl. now rewrite <- app_assoc.
      * apply count_startPrelude; now intros [].
      * apply count_startPrelude; now intros [].
      * rewrite count_pollEvents_queries. lia.
      * apply count_pollEvents_waits.
    + intros fuel Hfuel.
      rewrite (start_reaches_poll fuel Hreach). fold st0.
      unfold once. rewrite poll_unfold.
      destruct (@healthLoop_goes_on rt fuel statuses st0 (id c) Hid Hblank)
        as (st' & He & _).
      * rewrite Hk0. intros k Hk. apply Hrep. lia.
      * intros k Hk. apply Hun. lia.
      * rewrite He. reflexivity.
  - intros Hrep Hnever fuel.
    destruct (@healthLoop_goes_on rt fuel statuses st0 (id c) Hid Hblank)
      as (st' & He & _ & Hq & _).
    + rewrite Hk0. apply Hrep.
    + intros k _. apply Hnever.
    + exists st'. split.
      * rewrite (start_reaches_poll fuel Hreach). fold st0.
        unfold once. rewrite poll_unfold, He. reflexivity.
      * rewrite Hq, Hk0. reflexivity.
Qed.

(** The example of the specification: the statuses "starting", "starting",
    "running (healthy)" make [start()] resolve after the third query, with
    two waits of one second in between. *)
Lemma start_health_polling_witness :
  (exists st',
      start (scriptedRuntime threeStatuses twoNetworks) 3 (fresh defaultLedger)
      = (Val (Fulfilled aContainer), st') /\
      count isListContainers (trace st') = 3 /\
      count (isSleepOf 1000) (trace st') = 2 /\
      fst (start (scriptedRuntime threeStatuses twoNetworks) 2
             (fresh defaultLedger)) = Fuel) /\
  (exists st',
      start (scriptedRuntime (fun _ => "starting") twoNetworks) 7
            (fresh defaultLedger) = (Fuel, st') /\
      count isListContainers (trace st') = 7).
Proof.
  assert (Hreach : forall statuses,
             reachesPoll (scriptedRuntime statuses twoNetworks)
                         (fresh defaultLedger) aContainer).
  { intro statuses. split; [exact I|]. split; reflexivity. }
  assert (Hblank : trimsToEmpty (id aContainer) = false) by reflexivity.
  assert (Hrep : forall statuses n,
             reports (scriptedRuntime statuses twoNetworks) 0 (id aContainer)
                     statuses n).
  { intros statuses n k Hk.
    exists [infoOf (statuses k) twoNetworks], (infoOf (statuses k) twoNetworks).
    repeat split; reflexivity. }
  split.
  - destruct (start_health_polling threeStatuses (Hreach threeStatuses) Hblank)
      as [Hfirst _].
    destruct (Hfirst 3) as [Hres Hpending].
    + lia.
    + apply Hrep.
    + intros k Hk.
      destruct k as [|[|k]]; [reflexivity | reflexivity | simpl in Hk; lia].
    + reflexivity.
    + destruct (Hres 3) as (st' & Hstart & _ & Htrace & _); [lia|].
      exists st'. split; [exact Hstart|].
      rewrite Htrace. split; [reflexivity|]. split; [reflexivity|].
      apply Hpending. lia.
  - destruct (start_health_polling (fun _ => "starting")
                (Hreach (fun _ => "starting")) Hblank) as [_ Hnever].
    apply (Hnever (Hrep (fun _ => "starting")) (fun _ => eq_refl) 7).
Defined.

(** ** Clean-up before a new run *)

Section Launch.

Variable rt : Runtime.

Lemma quiet_poll (fuel : nat) (c : Container) :
  quiet isPolling (poll rt fuel c).
Proof.
  unfold poll. apply quiet_try_catch.
  - apply quiet_bind; [apply quiet_healthLoop | intros; apply quiet_ret].
  - intro ex. apply quiet_ret.
Qed.

(** The "start" listener records the container and its id and then only
    streams logs, queries statuses and waits. *)
Lemma onStart_polls (fuel : nat) (c : Container) (st : St) :
  extends isPolling
    {| this := recorded (this st) c; trace := trace st |}
    (snd (onStart rt fuel c st)).
Proof.
  rewrite onStart_unfold. cbv zeta.
  destruct (emitContainerLogs (this st)); [|apply quiet_poll].
  set (e := EStreamLogs c _ _).
  assert (He : extends isPolling
                 {| this := recorded (this st) c; trace := trace st |}
                 (record {| this := recorded (this st) c; trace := trace st |} e))
    by now apply extends_record.
  destruct (streamLogsReply rt _ c) as [[]|err|]; try exact He.
  eapply extends_trans; [exact He | apply quiet_poll].
Qed.

(** The launch sends the run request and, after it, only the requests of
    the listener; the object is untouched unless the "start" event came. *)
Lemma launch_events (fuel : nat) (st : St) :
  let fqn :=
    template (imageName (this st)) ++ ":" ++ template (imageVersion (this st))
  in
  let r := runReply rt (count isRun (trace st)) fqn in
  exists o rest,
    trace (snd (launch rt fuel st)) =
    (trace st ++ ERun fqn [] o r :: rest)%list /\
    forallb isPolling rest = true /\
    match r with
    | Fulfil c => this (snd (launch rt fuel st)) = recorded (this st) c
    | _ => this (snd (launch rt fuel st)) = this st
    end.
Proof.
  unfold launch. cbv zeta.
  set (fqn := template (imageName (this st)) ++ ":" ++ _).
  set (o := {| User := "root"; ExposedPorts := _; PublishAllPorts := _;
               Privileged := _; Env := _ |}).
  exists o.
  destruct (runReply rt (count isRun (trace st)) fqn) as [c|err|] eqn:Hr.
  - set (st1 := record st (ERun fqn [] o (Fulfil c))).
    assert (Hq : extends isPolling
                   {| this := recorded (this st1) c; trace := trace st1 |}
                   (snd (once (onStart rt fuel c) st1))).
    { generalize (onStart_polls fuel c st1). unfold once.
      destruct (onStart rt fuel c st1) as [[p|e| |] st']; trivial. }
    destruct Hq as [Ht (rest & He & Hall)].
    exists rest. split; [|split].
    + rewrite He. unfold st1, record. simpl. now rewrite <- app_assoc.
    + exact Hall.
    + exact Ht.
  - exists []. simpl. auto.
  - exists []. simpl. auto.
Qed.

(** When the listener resolves the promise of [start()], it resolves it with
    the container of the "start" event. *)
Lemma once_onStart_fulfilled (fuel : nat) (c c' : Container) (st st' : St) :
  once (onStart rt fuel c') st = (Val (Fulfilled c), st') -> c = c'.
Proof.
  unfold once. rewrite onStart_unfold. cbv zeta.
  destruct (emitContainerLogs (this st)).
  - destruct (streamLogsReply rt _ c') as [[]|e|]; try discriminate.
    rewrite poll_unfold.
    destruct (healthLoop rt fuel _) as [[[]|e| |] s']; congruence.
  - rewrite poll_unfold.
    destruct (healthLoop rt fuel _) as [[[]|e| |] s']; congruence.
Qed.

End Launch.

(** C2.  The requests [evs] that a call of [start()] sends are as follows.
    On a handle whose container reference is [c0], the first is the stop
    request for [c0]; only if it is fulfilled does the remove request for
    [c0] follow, and only if that is fulfilled too does the run request
    follow; after the run request come only the log, status and wait
    requests of the listener.  On a handle without a container reference
    the first request is the run request, again followed by requests of the
    listener only: no stop and no remove is sent. *)
Theorem start_cleans_up_before_run (rt : Runtime) (fuel : nat) (st : St) :
  exists evs,
    trace (snd (start rt fuel st)) = (trace st ++ evs)%list /\
    (forall c0, container (this st) = Some c0 ->
       exists r1 rest1,
         evs = EStop c0 r1 :: rest1 /\
         match r1 with
         | Fulfil _ =>
             exists r2 rest2,
               rest1 = ERemove c0 r2 :: rest2 /\
               match r2 with
               | Fulfil _ =>
                   exists image cmd o r rest3,
                     rest2 = ERun image cmd o r :: rest3 /\
                     forallb isPolling rest3 = true
               | _ => rest2 = []
               end
         | _ => rest1 = []
         end) /\
    (container (this st) = None ->
       exists image cmd o r rest,
         evs = ERun image cmd o r :: rest /\
         forallb isPolling rest = true).
Proof.
  rewrite start_unfold.
  destruct (container (this st)) as [c0|].
  - cbv zeta.
    destruct (stopReply rt (count isStop (trace st)) c0) as [[]|e1|] eqn:H1.
    + destruct (removeReply rt (count isRemove (trace st)) c0) as [[]|e2|]
        eqn:H2.
      * set (st2 := record (record st (EStop c0 (Fulfil tt)))
                           (ERemove c0 (Fulfil tt))).
        destruct (launch_events rt fuel st2) as (o & rest & Ht & Hall & _).
        revert Ht.
        set (image := template _ ++ _). set (r := runReply rt _ image).
        intro Ht.
        exists (EStop c0 (Fulfil tt) :: ERemove c0 (Fulfil tt)
                  :: ERun image [] o r :: rest).
        split; [|split; [|discriminate]].
        -- rewrite Ht. unfold st2, record. simpl. now rewrite <- !app_assoc.
        -- intros c Hc. injection Hc as <-.
           exists (Fulfil tt), (ERemove c0 (Fulfil tt) :: ERun image [] o r :: rest).
           split; [reflexivity|].
           exists (Fulfil tt), (ERun image [] o r :: rest).
           split; [reflexivity|].
           now exists image, [], o, r, rest.
      * exists [EStop c0 (Fulfil tt); ERemove c0 (Reject e2)].
        split; [|split; [|discriminate]].
        -- unfold record. simpl. now rewrite <- !app_assoc.
        -- intros c Hc. injection Hc as <-.
           exists (Fulfil tt), [ERemove c0 (Reject e2)].
           split; [reflexivity|].
           now exists (Reject e2), [].
      * exists [EStop c0 (Fulfil tt); ERemove c0 Silent].
        split; [|split; [|discriminate]].
        -- unfold record. simpl. now rewrite <- !app_assoc.
        -- intros c Hc. injection Hc as <-.
           exists (Fulfil tt), [ERemove c0 Silent].
           split; [reflexivity|].
           now exists Silent, [].
    + exists [EStop c0 (Reject e1)].
      split; [reflexivity|]. split; [|discriminate].
      intros c Hc. injection Hc as <-. now exists (Reject e1), [].
    + exists [EStop c0 Silent].
      split; [reflexivity|]. split; [|discriminate].
      intros c Hc. injection Hc as <-. now exists Silent, [].
  - destruct (launch_events rt fuel st) as (o & rest & Ht & Hall & _).
    revert Ht.
    set (image := template _ ++ _). set (r := runReply rt _ image).
    intro Ht.
    exists (ERun image [] o r :: rest).
    split; [exact Ht|]. split; [discriminate|].
    intros _. now exists image, [], o, r, rest.
Qed.

Lemma start_cleans_up_before_run_witness :
  let rt := scriptedRuntime threeStatuses twoNetworks in
  let st1 := snd (start rt 3 (fresh defaultLedger)) in
  container (this st1) = Some aContainer /\
  exists evs r1 rest1,
    trace (snd (start rt 3 st1)) = (trace st1 ++ evs)%list /\
    evs = EStop aContainer r1 :: rest1.
Proof.
  intros rt st1. split; [reflexivity|].
  destruct (start_cleans_up_before_run rt 3 st1) as (evs & Ht & Hsome & _).
  destruct (Hsome aContainer eq_refl) as (r1 & rest1 & He & _).
  exists evs, r1, rest1. split; [exact Ht | exact He].
Defined.

(** ** What [start()] does to the object *)

Section StartObject.

Variable rt : Runtime.

Lemma launch_fulfilled (fuel : nat) (st st' : St) (c : Container) :
  launch rt fuel st = (Val (Fulfilled c), st') ->
  this st' = recorded (this st) c.
Proof.
  intro H.
  destruct (launch_events rt fuel st) as (o & rest & _ & _ & Hthis).
  rewrite H in Hthis. simpl in Hthis.
  revert H Hthis. unfold launch. cbv zeta.
  destruct (runReply rt _ _) as [c'|err|]; try discriminate.
  intros H Hthis. apply once_onStart_fulfilled in H. now subst c'.
Qed.

(** A call of [start()] either leaves the object as it was or records the
    container of the "start" event and its id. *)
Lemma start_this (fuel : nat) (st : St) :
  this (snd (start rt fuel st)) = this st \/
  exists c, this (snd (start rt fuel st)) = recorded (this st) c.
Proof.
  rewrite start_unfold.
  assert (Hl : forall s,
             this (snd (launch rt fuel s)) = this s \/
             exists c, this (snd (launch rt fuel s)) = recorded (this s) c).
  { intro s. destruct (launch_events rt fuel s) as (o & rest & _ & _ & Hthis).
    destruct (runReply rt _ _) as [c|e|]; eauto. }
  destruct (container (this st)) as [c0|]; [|apply Hl].
  cbv zeta.
  destruct (stopReply rt _ c0) as [[]|e|]; auto.
  destruct (removeReply rt _ c0) as [[]|e|]; auto.
  apply (Hl (record (record st _) _)).
Qed.

(** A call of [start()] that resolves with [c] has recorded [c]. *)
Lemma start_fulfilled (fuel : nat) (st st' : St) (c : Container) :
  start rt fuel st = (Val (Fulfilled c), st') ->
  this st' = recorded (this st) c.
Proof.
  rewrite start_unfold.
  destruct (container (this st)) as [c0|]; [|apply launch_fulfilled].
  cbv zeta.
  destruct (stopReply rt _ c0) as [[]|e|]; try discriminate.
  destruct (removeReply rt _ c0) as [[]|e|]; try discriminate.
  intro H. now apply launch_fulfilled in H.
Qed.

(** The requests of a call of [start()] come after those already sent. *)
Lemma start_trace (fuel : nat) (st : St) :
  exists evs, trace (snd (start rt fuel st)) = (trace st ++ evs)%list.
Proof.
  rewrite start_unfold.
  assert (Hl : forall s evs0,
             trace s = (trace st ++ evs0)%list ->
             exists evs,
               trace (snd (launch rt fuel s)) = (trace st ++ evs)%list).
  { intros s evs0 Hs.
    destruct (launch_events rt fuel s) as (o & rest & Ht & _).
    rewrite Ht, Hs, <- app_assoc. eauto. }
  destruct (container (this st)) as [c0|].
  - cbv zeta.
    destruct (stopReply rt _ c0) as [[]|e|];
      try (eexists; reflexivity).
    destruct (removeReply rt _ c0) as [[]|e|];
      try (eexists; unfold record; simpl; rewrite <- app_assoc; reflexivity).
    eapply Hl. unfold record; simpl. rewrite <- app_assoc. reflexivity.
  - apply (Hl st []). now rewrite app_nil_r.
Qed.

End StartObject.

(** ** Stopping and destroying *)

(** C10.  On a handle whose container reference is unset, [stop()] does not
    return a promise: the exception of [getContainer()] reaches the caller
    as a thrown exception.  The object and the trace are unchanged. *)
Theorem stop_unstarted_throws (rt : Runtime) (st : St) :
  container (this st) = None ->
  stop rt st =
  (Exn (Error
          "ChiaTestLedger.getContainer() container not set on this instance yet."),
   st).
Proof.
  intro Hc. unfold stop, getContainer, bind, getThis. simpl.
  rewrite Hc. reflexivity.
Qed.

Lemma stop_unstarted_throws_witness :
  stop lostConnectionRuntime (fresh defaultLedger) =
  (Exn (Error
          "ChiaTestLedger.getContainer() container not set on this instance yet."),
   fresh defaultLedger).
Proof.
  apply stop_unstarted_throws. reflexivity.
Defined.

(** C3, as the code has it.  On a handle whose container reference is unset,
    [destroy()] returns a rejected promise and touches nothing.  After a
    call of [start()] that resolved with [c], [destroy()] sends a remove
    request for [c] and returns the promise of that request; the object is
    unchanged: the container reference is still [c] and the recorded id
    still that of [c]. *)
Theorem destroy_rejects_unstarted_keeps_reference (rt : Runtime) :
  (forall st,
      container (this st) = None ->
      destroy rt st =
      (Val (Rejected
              (Error
                 "ChiaTestLedger.destroy() Container was never created, nothing to destroy.")),
       st)) /\
  (forall fuel st c st1,
      start rt fuel st = (Val (Fulfilled c), st1) ->
      let r := removeReply rt (count isRemove (trace st1)) c in
      destroy rt st1 = (Val (promise_of r), record st1 (ERemove c r)) /\
      container (this (snd (destroy rt st1))) = Some c /\
      containerId (this (snd (destroy rt st1))) = Some (id c)).
Proof.
  split.
  - intros st Hc. unfold destroy, bind, getThis. simpl. rewrite Hc. reflexivity.
  - intros fuel st c st1 Hstart r.
    apply start_fulfilled in Hstart.
    assert (Hd : destroy rt st1 = (Val (promise_of r), record st1 (ERemove c r))).
    { unfold destroy, bind, getThis. simpl. rewrite Hstart. reflexivity. }
    rewrite Hd. simpl. rewrite Hstart. auto.
Qed.

Lemma destroy_rejects_unstarted_keeps_reference_witness :
  let rt := scriptedRuntime threeStatuses twoNetworks in
  fst (destroy rt (fresh defaultLedger)) =
  Val (Rejected
         (Error
            "ChiaTestLedger.destroy() Container was never created, nothing to destroy.")) /\
  container (this (snd (destroy rt (snd (start rt 3 (fresh defaultLedger))))))
  = Some aContainer.
Proof.
  intro rt.
  destruct (destroy_rejects_unstarted_keeps_reference rt) as [Hnone Hsome].
  split.
  - rewrite (Hnone (fresh defaultLedger) eq_refl). reflexivity.
  - apply (Hsome 3 (fresh defaultLedger) aContainer
                 (snd (start rt 3 (fresh defaultLedger))) eq_refl).
Defined.

(** C3, as stated, fails: after a call of [start()] that resolved,
    [destroy()] succeeds but the container reference is still recorded. *)
Lemma destroy_keeps_container_reference :
  let rt := scriptedRuntime threeStatuses twoNetworks in
  let st1 := snd (start rt 3 (fresh defaultLedger)) in
  fst (start rt 3 (fresh defaultLedger)) = Val (Fulfilled aContainer) /\
  fst (destroy rt st1) = Val (Fulfilled tt) /\
  container (this (snd (destroy rt st1))) = Some aContainer /\
  container (this (snd (destroy rt st1))) <> None.
Proof.
  repeat split. discriminate.
Qed.

(** ** The address of the container *)

(** C4.  Whatever container info the status query returns,
    [getContainerIpAddress()] rejects with the "not connected to any
    networks" error when the network mapping is empty and otherwise resolves
    with the [IPAddress] of the first network in enumeration order. *)
Theorem getContainerIpAddress_first_network
        (rt : Runtime) (st st1 : St) (ci : ContainerInfo) :
  getContainerInfo rt st = (Val (Fulfilled ci), st1) ->
  getContainerIpAddress rt st =
  match Networks (NetworkSettings ci) with
  | [] =>
      (Val (Rejected
              (Error
                 "BesuTestLedger#getContainerIpAddress() container not connected to any networks")),
       st1)
  | (_, info) :: _ => (Val (Fulfilled (IPAddress info)), st1)
  end.
Proof.
  intro H. unfold getContainerIpAddress, async.
  unfold bind at 1. unfold bind at 1. rewrite H. simpl.
  destruct (Networks (NetworkSettings ci)) as [|[name info] rest]; simpl.
  - reflexivity.
  - rewrite String.eqb_refl. reflexivity.
Qed.

(** The example of the specification: with the networks "bridge" and
    "custom", in that order, the address is that of "bridge". *)
Lemma getContainerIpAddress_first_network_witness :
  let rt := scriptedRuntime threeStatuses twoNetworks in
  let st1 := snd (start rt 3 (fresh defaultLedger)) in
  fst (getContainerIpAddress rt st1) = Val (Fulfilled "172.17.0.2") /\
  fst (getContainerIpAddress (scriptedRuntime threeStatuses []) st1) =
  Val (Rejected
         (Error
            "BesuTestLedger#getContainerIpAddress() container not connected to any networks")).
Proof.
  intros rt st1. split.
  - rewrite (@getContainerIpAddress_first_network rt st1
               (snd (getContainerInfo rt st1))
               (infoOf "exited" twoNetworks) eq_refl).
    reflexivity.
  - rewrite (@getContainerIpAddress_first_network
               (scriptedRuntime threeStatuses []) st1
               (snd (getContainerInfo (scriptedRuntime threeStatuses []) st1))
               (infoOf "exited" []) eq_refl).
    reflexivity.
Defined.

(** ** Sequences of calls *)

Section Calls.

Variable rt : Runtime.

Lemma afterAll_cons (c : call) (cs : list call) (st : St) :
  afterAll rt (c :: cs) st = afterAll rt cs (after rt c st).
Proof. reflexivity. Qed.

(** What holds initially and is kept by every call holds after any sequence
    of calls. *)
Lemma afterAll_invariant (P : St -> Prop) :
  (forall c st, P st -> P (after rt c st)) ->
  forall cs st, P st -> P (afterAll rt cs st).
Proof.
  intros Hstep cs. induction cs as [|c cs IH]; intros st Hst.
  - exact Hst.
  - rewrite afterAll_cons. apply IH, Hstep, Hst.
Qed.

(** A call of [start()] that records a container has seen a "start"
    event. *)
Lemma start_recorded (fuel : nat) (st : St) :
  this (snd (start rt fuel st)) = this st \/
  exists c,
    this (snd (start rt fuel st)) = recorded (this st) c /\
    0 < count isStartEvent (trace (snd (start rt fuel st))).
Proof.
  rewrite start_unfold.
  assert (Hl : forall s,
             this (snd (launch rt fuel s)) = this s \/
             exists c,
               this (snd (launch rt fuel s)) = recorded (this s) c /\
               0 < count isStartEvent (trace (snd (launch rt fuel s)))).
  { intro s. destruct (launch_events rt fuel s) as (o & rest & Ht & _ & Hthis).
    destruct (runReply rt _ _) as [c|e|]; auto.
    right. exists c. split; [exact Hthis|].
    rewrite Ht, count_app. unfold count at 2. simpl. lia. }
  destruct (container (this st)) as [c0|]; [|apply Hl].
  cbv zeta.
  destruct (stopReply rt _ c0) as [[]|e|]; auto.
  destruct (removeReply rt _ c0) as [[]|e|]; auto.
  apply (Hl (record (record st _) _)).
Qed.

(** Every call other than [start()] leaves the object as it was, and every
    call only adds requests to the trace. *)
Lemma after_object (c : call) (st : St) :
  isCallStart c = false -> this (after rt c st) = this st.
Proof.
  destruct c; simpl; try discriminate; intros _.
  - apply (quiet_stop rt st).
  - apply (quiet_destroy rt st).
  - now rewrite getContainer_state.
  - now rewrite getContainerId_state.
  - reflexivity.
  - apply (quiet_getContainerIpAddress rt st).
Qed.

Lemma after_trace (c : call) (st : St) :
  exists evs, trace (after rt c st) = (trace st ++ evs)%list.
Proof.
  destruct c; simpl.
  - apply start_trace.
  - destruct (quiet_stop rt st) as [_ (evs & He & _)]. eauto.
  - destruct (quiet_destroy rt st) as [_ (evs & He & _)]. eauto.
  - rewrite getContainer_state. exists []. now rewrite app_nil_r.
  - rewrite getContainerId_state. exists []. now rewrite app_nil_r.
  - exists []. now rewrite app_nil_r.
  - destruct (quiet_getContainerIpAddress rt st) as [_ (evs & He & _)]. eauto.
Qed.

Lemma after_idOfContainer (c : call) (st : St) :
  idOfContainer (this st) -> idOfContainer (this (after rt c st)).
Proof.
  intro H. destruct (isCallStart c) eqn:Hc.
  - destruct c; try discriminate. simpl.
    destruct (start_this rt fuel st) as [-> | [c' ->]];
      [exact H | reflexivity].
  - now rewrite after_object.
Qed.

(** No call changes the image name and tag of the object. *)
Lemma after_image (c : call) (st : St) :
  imageName (this (after rt c st)) = imageName (this st) /\
  imageVersion (this (after rt c st)) = imageVersion (this st).
Proof.
  destruct (isCallStart c) eqn:Hc.
  - destruct c; try discriminate. simpl.
    destruct (start_this rt fuel st) as [-> | [c' ->]]; split; reflexivity.
  - rewrite after_object by exact Hc. split; reflexivity.
Qed.

(** As long as no "start" event has been seen, nothing is recorded. *)
Lemma after_unstarted (c : call) (st : St) :
  (count isStartEvent (trace st) = 0 ->
   container (this st) = None /\ containerId (this st) = None) ->
  count isStartEvent (trace (after rt c st)) = 0 ->
  container (this (after rt c st)) = None /\
  containerId (this (after rt c st)) = None.
Proof.
  intros H H0.
  destruct (after_trace c st) as (evs & He).
  assert (Hst : count isStartEvent (trace st) = 0).
  { rewrite He, count_app in H0. lia. }
  destruct (isCallStart c) eqn:Hc.
  - destruct c; try discriminate. simpl in *.
    destruct (start_recorded fuel st) as [-> | (c' & _ & Hpos)];
      [auto | lia].
  - rewrite after_object by exact Hc. auto.
Qed.

End Calls.

(** ** The image reference *)

(** C6.  On the handle built from any options, and after any sequence of
    calls on it, [getContainerImageName()] returns the image name, a colon
    and the tag, where the name (the tag) is the fixed default when the
    option is omitted and the option itself when it is given and not empty;
    the call returns normally and leaves the object and the trace of runtime
    requests as they were. *)
Theorem getContainerImageName_name_colon_tag (o : Opts.t) :
  exists h name tag,
    new_ChiaTestLedger o = inr h /\
    imageName h = Some name /\
    imageVersion h = Some tag /\
    (forall rt cs,
        let st := afterAll rt cs (fresh h) in
        getContainerImageName st = (Val (name ++ ":" ++ tag), st)) /\
    (Opts.imageName o = None -> name = DEFAULTS.imageName) /\
    (Opts.imageVersion o = None -> tag = DEFAULTS.imageVersion) /\
    (forall s, Opts.imageName o = Some s -> s <> EmptyString -> name = s) /\
    (forall s, Opts.imageVersion o = Some s -> s <> EmptyString -> tag = s).
Proof.
  rewrite new_ChiaTestLedger_total.
  eexists; exists (or_string (Opts.imageName o) DEFAULTS.imageName),
             (or_string (Opts.imageVersion o) DEFAULTS.imageVersion).
  split; [reflexivity|]. split; [reflexivity|]. split; [reflexivity|].
  split.
  { intros rt cs. set (h := {| opts := o |}). cbv zeta.
    assert (H : imageName (this (afterAll rt cs (fresh h))) = imageName h /\
                imageVersion (this (afterAll rt cs (fresh h))) = imageVersion h).
    { apply afterAll_invariant
        with (P := fun s => imageName (this s) = imageName h /\
                            imageVersion (this s) = imageVersion h).
      - intros c s [Hn Hv].
        destruct (after_image rt c s) as [Hn' Hv']. split; congruence.
      - split; reflexivity. }
    destruct H as [Hn Hv].
    unfold getContainerImageName, bind, getThis, ret. rewrite Hn, Hv.
    reflexivity. }
  repeat split.
  - intros ->; reflexivity.
  - intros ->; reflexivity.
  - intros s -> Hs. now apply or_string_given.
  - intros s -> Hs. now apply or_string_given.
Qed.

Lemma getContainerImageName_name_colon_tag_witness :
  exists h,
    new_ChiaTestLedger shortTagOptions = inr h /\
    getContainerImageName (fresh h) = (Val "chia:v1", fresh h).
Proof.
  destruct (getContainerImageName_name_colon_tag shortTagOptions)
    as (h & name & tag & Hnew & _ & _ & Hget & _ & _ & Hname & Htag).
  exists h. split; [exact Hnew|].
  specialize (Hget lostConnectionRuntime []).
  rewrite (Hname "chia" eq_refl) in Hget by discriminate.
  rewrite (Htag "v1" eq_refl) in Hget by discriminate.
  apply Hget.
Defined.

(** ** The two optional fields *)

(** C7.  After construction and any sequence of calls of the public methods
    ([start()] with its "start" listener, run for any number of poll
    iterations, [stop()], [destroy()] and the accessors), on any runtime,
    the recorded id is the id of the recorded container if there is one and
    is unset otherwise; in particular [containerId] is defined exactly when
    [container] is. *)
Theorem containerId_defined_iff_container
        (rt : Runtime) (o : Opts.t) (cs : list call) :
  exists h,
    new_ChiaTestLedger o = inr h /\
    let st := afterAll rt cs (fresh h) in
    containerId (this st) = option_map id (container (this st)) /\
    (containerId (this st) <> None <-> container (this st) <> None).
Proof.
  rewrite new_ChiaTestLedger_total. eexists. split; [reflexivity|].
  set (h := {| opts := o |}).
  assert (H : idOfContainer (this (afterAll rt cs (fresh h)))).
  { apply afterAll_invariant with (P := fun st => idOfContainer (this st)).
    - intros c st. apply after_idOfContainer.
    - reflexivity. }
  cbv zeta. split; [exact H|].
  rewrite H. destruct (container (this (afterAll rt cs (fresh h)))); simpl.
  - split; discriminate.
  - split; intro Hn; now elim Hn.
Qed.

Lemma containerId_defined_iff_container_witness :
  let rt := scriptedRuntime threeStatuses twoNetworks in
  let st := afterAll rt [CallStart 3; CallDestroy] (fresh defaultLedger) in
  containerId (this st) = Some "abc" /\ container (this st) <> None.
Proof.
  intros rt st.
  destruct (containerId_defined_iff_container rt noOptions
              [CallStart 3; CallDestroy]) as (h & Hnew & Hid & Hiff).
  injection Hnew as <-.
  split; [exact Hid|]. apply Hiff. fold st. rewrite Hid. discriminate.
Defined.

(** ** Reading the container id *)

Lemma getContainerId_unset (st : St) :
  containerId (this st) = None ->
  getContainerId st = (Exn (ChecksError getContainerId_subject), st).
Proof.
  intro H. unfold getContainerId, bind, getThis. simpl. rewrite H. reflexivity.
Qed.

Lemma getContainerId_set (st : St) (i : string) :
  containerId (this st) = Some i ->
  getContainerId st =
  if trimsToEmpty i
  then (Exn (ChecksError getContainerId_subject), st)
  else (Val i, st).
Proof.
  intro H. unfold getContainerId, bind, getThis. simpl. rewrite H. simpl.
  destruct (trimsToEmpty i); reflexivity.
Qed.

(** C5, as the code has it.  [getContainerId()] throws the error of the
    non-blank check when the recorded id is unset or blank and returns the
    recorded id otherwise, leaving the state as it is.  It throws in
    particular on a handle on which no "start" event has been handled yet,
    whatever was called on it since construction.  Once it returns an id it
    returns the same id after any further calls other than [start()]. *)
Theorem getContainerId_checks_recorded_id (rt : Runtime) :
  (forall st,
      containerId (this st) = None ->
      getContainerId st = (Exn (ChecksError getContainerId_subject), st)) /\
  (forall st i,
      containerId (this st) = Some i -> trimsToEmpty i = true ->
      getContainerId st = (Exn (ChecksError getContainerId_subject), st)) /\
  (forall st i,
      containerId (this st) = Some i -> trimsToEmpty i = false ->
      getContainerId st = (Val i, st)) /\
  (forall o h cs,
      new_ChiaTestLedger o = inr h ->
      let st := afterAll rt cs (fresh h) in
      count isStartEvent (trace st) = 0 ->
      getContainerId st = (Exn (ChecksError getContainerId_subject), st)) /\
  (forall st i cs,
      getContainerId st = (Val i, st) ->
      forallb (fun c => negb (isCallStart c)) cs = true ->
      getContainerId (afterAll rt cs st) = (Val i, afterAll rt cs st)).
Proof.
  split; [exact getContainerId_unset|].
  split; [intros st i Hi Hb; now rewrite (getContainerId_set st Hi), Hb|].
  split; [intros st i Hi Hb; now rewrite (getContainerId_set st Hi), Hb|].
  split.
  - intros o h cs Hnew st H0. apply getContainerId_unset.
    rewrite new_ChiaTestLedger_total in Hnew. injection Hnew as <-.
    assert (H : count isStartEvent (trace st) = 0 ->
                container (this st) = None /\ containerId (this st) = None).
    { apply afterAll_invariant
        with (P := fun s => count isStartEvent (trace s) = 0 ->
                            container (this s) = None /\
                            containerId (this s) = None).
      - intros c s. apply after_unstarted.
      - intros _. split; reflexivity. }
    now apply H.
  - intros st i cs. revert st.
    induction cs as [|c cs IH]; intros st Hget Hcs; [exact Hget|].
    simpl in Hcs. apply andb_prop in Hcs as [Hc Hcs].
    apply negb_true_iff in Hc.
    rewrite afterAll_cons. apply IH; [|exact Hcs].
    assert (Hthis : this (after rt c st) = this st) by now apply after_object.
    destruct (containerId (this st)) as [j|] eqn:Hj.
    + rewrite (getContainerId_set st Hj) in Hget.
      rewrite (@getContainerId_set (after rt c st) j) by now rewrite Hthis.
      destruct (trimsToEmpty j); [discriminate|].
      injection Hget as ->. reflexivity.
    + rewrite (getContainerId_unset st Hj) in Hget. discriminate.
Qed.

Lemma getContainerId_checks_recorded_id_witness :
  let rt := scriptedRuntime threeStatuses twoNetworks in
  let st1 := snd (start rt 3 (fresh defaultLedger)) in
  getContainerId (afterAll rt [CallStop; CallDestroy] (fresh defaultLedger)) =
  (Exn (ChecksError getContainerId_subject),
   afterAll rt [CallStop; CallDestroy] (fresh defaultLedger)) /\
  getContainerId st1 = (Val "abc", st1) /\
  getContainerId (afterAll rt [CallGetContainerIpAddress; CallStop] st1) =
  (Val "abc", afterAll rt [CallGetContainerIpAddress; CallStop] st1).
Proof.
  intros rt st1.
  destruct (getContainerId_checks_recorded_id rt)
    as (_ & _ & Hset & Hfresh & Hstable).
  assert (H1 : getContainerId st1 = (Val "abc", st1))
    by (apply Hset; reflexivity).
  split; [|split].
  - apply (Hfresh noOptions defaultLedger [CallStop; CallDestroy]);
      reflexivity.
  - exact H1.
  - apply Hstable; [exact H1 | reflexivity].
Defined.

(** C5, as stated, fails: a call of [start()] whose health poll is rejected
    (the runtime lost the connection) has failed, and no call of [start()]
    has succeeded, yet [getContainerId()] returns the id recorded by the
    "start" listener. *)
Lemma getContainerId_after_failed_start :
  let rt := lostConnectionRuntime in
  let st1 := snd (start rt 3 (fresh defaultLedger)) in
  new_ChiaTestLedger noOptions = inr defaultLedger /\
  fst (start rt 3 (fresh defaultLedger)) =
  Val (Rejected (RuntimeError "connection lost")) /\
  getContainerId st1 = (Val "abc", st1).
Proof.
  repeat split.
Qed.

(** ** A failure of the log streaming *)

(** C9, on the code.  When log forwarding is enabled and the log streaming
    started by the "start" listener is rejected with [e], the listener ends
    with the exception [e], before any status query; the promise of
    [start()] is neither resolved nor rejected: it stays pending. *)
Theorem start_log_failure_leaves_promise_pending
        (rt : Runtime) (fuel : nat) (st : St) (c : Container) (e : exn) :
  container (this st) = None ->
  runReply rt (count isRun (trace st))
    (template (imageName (this st)) ++ ":" ++ template (imageVersion (this st)))
  = Fulfil c ->
  emitContainerLogs (this st) = true ->
  streamLogsReply rt (count isStreamLogs (trace st)) c = Reject e ->
  exists st',
    start rt fuel st = (Val Pending, st') /\
    start rt fuel st <> (Val (Rejected e), st') /\
    count isListContainers (trace st') = count isListContainers (trace st) /\
    exists ev, fst (onStart rt fuel c (record st ev)) = Exn e /\ isRun ev = true.
Proof.
  intros Hc Hrun Hemit Hlogs.
  set (fqn := template (imageName (this st)) ++ ":" ++ _) in *.
  set (ev := ERun fqn []
               {| User := "root"; ExposedPorts := ["22/tcp"];
                  PublishAllPorts := true; Privileged := true;
                  Env := envVars (this st) |} (Fulfil c)).
  assert (Hl : onStart rt fuel c (record st ev) =
               (Exn e,
                record {| this := recorded (this st) c;
                          trace := trace (record st ev) |}
                       (EStreamLogs c ("[" ++ fqn ++ "]") (Reject e)))).
  { rewrite onStart_unfold. cbv zeta.
    change (this (record st ev)) with (this st). rewrite Hemit.
    rewrite count_record. simpl. rewrite Nat.add_0_r, Hlogs. reflexivity. }
  assert (Hs : start rt fuel st =
               (Val Pending,
                record {| this := recorded (this st) c;
                          trace := trace (record st ev) |}
                       (EStreamLogs c ("[" ++ fqn ++ "]") (Reject e)))).
  { rewrite start_unfold, Hc. unfold launch. cbv zeta. fold fqn.
    rewrite Hrun. fold ev. unfold once. rewrite Hl. reflexivity. }
  eexists. split; [exact Hs|]. split; [rewrite Hs; discriminate|]. split.
  - unfold record. simpl. rewrite !count_app. unfold count at 2 3. simpl. lia.
  - exists ev. split; [now rewrite Hl | reflexivity].
Qed.

Lemma start_log_failure_leaves_promise_pending_witness :
  fst (start brokenLogsRuntime 5 (fresh defaultLedger)) = Val Pending.
Proof.
  destruct (@start_log_failure_leaves_promise_pending
              brokenLogsRuntime 5 (fresh defaultLedger) aContainer
              (RuntimeError "no log stream")
              eq_refl eq_refl eq_refl eq_refl) as (st' & Hs & _).
  rewrite Hs. reflexivity.
Defined.

(** * Further properties *)

(** ** One status query *)

Section Query.

Variable rt : Runtime.

(** [await this.getContainerInfo()] in every case: the query is sent first;
    the recorded id is checked only once the listing has arrived. *)
Lemma await_getContainerInfo (st : St) :
  (p <- getContainerInfo rt ;; await p) st =
  let r := listContainersReply rt (count isListContainers (trace st)) in
  let st1 := record st (EListContainers r) in
  match r with
  | Fulfil cis =>
      match containerId (this st) with
      | None => (Exn (ChecksError getContainerId_subject), st1)
      | Some i =>
          if trimsToEmpty i
          then (Exn (ChecksError getContainerId_subject), st1)
          else
            match find (fun ci => String.eqb (Id ci) i) cis with
            | Some ci => (Val ci, st1)
            | None => (Exn (noContainerWithId i), st1)
            end
      end
  | Reject e => (Exn e, st1)
  | Silent => (Hang, st1)
  end.
Proof.
  unfold getContainerInfo. rewrite await_async.
  destruct st as [h t].
  unfold bind, Docker_listContainers, getContainerId, getThis, check,
    Checks.nonBlankString.
  cbn -[count].
  destruct (listContainersReply rt (count isListContainers t))
    as [cis|e|]; cbn -[count]; try reflexivity.
  destruct (containerId h) as [i|]; cbn -[count]; [|reflexivity].
  destruct (trimsToEmpty i); cbn -[count]; [reflexivity|].
  destruct (find _ cis); reflexivity.
Qed.

Lemma await_getContainerInfo_state (st : St) :
  snd ((p <- getContainerInfo rt ;; await p) st) =
  record st (EListContainers
               (listContainersReply rt (count isListContainers (trace st)))).
Proof.
  rewrite await_getContainerInfo. cbv zeta.
  destruct (listContainersReply rt _) as [cis|e|]; try reflexivity.
  destruct (containerId (this st)) as [i|]; [|reflexivity].
  destruct (trimsToEmpty i); [reflexivity|].
  destruct (find _ cis); reflexivity.
Qed.

(** A value of the query comes from a listing. *)
Lemma await_getContainerInfo_val (st st1 : St) (ci : ContainerInfo) :
  (p <- getContainerInfo rt ;; await p) st = (Val ci, st1) ->
  exists cis i,
    st1 = record st (EListContainers (Fulfil cis)) /\
    containerId (this st) = Some i /\
    trimsToEmpty i = false /\
    find (fun x => String.eqb (Id x) i) cis = Some ci.
Proof.
  rewrite await_getContainerInfo. cbv zeta.
  destruct (listContainersReply rt _) as [cis|e|]; try discriminate.
  destruct (containerId (this st)) as [i|]; [|discriminate].
  destruct (trimsToEmpty i) eqn:Hb; [discriminate|].
  destruct (find _ cis) as [x|] eqn:Hf; [|discriminate].
  intro H. injection H as <- <-. now exists cis, i.
Qed.

(** [getContainerInfo()] is the awaited computation wrapped in a promise. *)
Lemma getContainerInfo_promise (st : St) :
  getContainerInfo rt st =
  match (p <- getContainerInfo rt ;; await p) st with
  | (Val ci, s) => (Val (Fulfilled ci), s)
  | (Exn e, s) => (Val (Rejected e), s)
  | (Hang, s) => (Val Pending, s)
  | (Fuel, s) => (Fuel, s)
  end.
Proof.
  unfold getContainerInfo at 2. rewrite await_async.
  unfold getContainerInfo, async.
  destruct (bind _ _ st) as [[ci|e| |] s]; reflexivity.
Qed.

(** One iteration of the health poll, whatever the query yields. *)
Lemma healthLoop_S (fuel : nat) (st : St) :
  healthLoop rt (S fuel) st =
  match (p <- getContainerInfo rt ;; await p) st with
  | (Val ci, st1) =>
      if endsWith (Status ci) "(healthy)"
      then (Val tt, st1)
      else healthLoop rt fuel (record st1 (ESleep 1000))
  | (Exn e, st1) => (Exn e, st1)
  | (Hang, st1) => (Hang, st1)
  | (Fuel, st1) => (Fuel, st1)
  end.
Proof.
  change (healthLoop rt (S fuel)) with
    (containerInfo <- (p <- getContainerInfo rt ;; await p) ;;
     let isHealthy := endsWith (Status containerInfo) "(healthy)" in
     (if negb isHealthy
      then p <- setTimeout_promise 1000 ;; await p
      else ret tt) ;;
     if negb isHealthy then healthLoop rt fuel else ret tt).
  unfold bind at 1.
  destruct (bind (getContainerInfo rt) _ st) as [[ci|e| |] st1];
    try reflexivity.
  cbv zeta. destruct (endsWith (Status ci) "(healthy)"); reflexivity.
Qed.

End Query.

(** ** The health poll on any runtime *)

Section Poll.

Variable rt : Runtime.

Lemma pollShape_cons_wait (cis : list ContainerInfo) (evs : list event) :
  pollShape evs = true ->
  pollShape (EListContainers (Fulfil cis) :: ESleep 1000 :: evs) = true.
Proof. intro H. simpl. exact H. Qed.

(** The poll touches nothing but the trace, and what it appends has the
    shape of a poll with at most one query per unit of fuel. *)
Lemma healthLoop_shape (fuel : nat) :
  forall st,
    exists evs,
      snd (healthLoop rt fuel st) =
      {| this := this st; trace := (trace st ++ evs)%list |} /\
      pollShape evs = true /\
      count isListContainers evs <= fuel /\
      forallb isQueryOrWait evs = true.
Proof.
  induction fuel as [|fuel IH]; intro st.
  - exists []. simpl. rewrite app_nil_r. destruct st; auto.
  - rewrite healthLoop_S.
    pose proof (await_getContainerInfo_state rt st) as Hst.
    destruct (bind (getContainerInfo rt) _ st) as [[ci|e| |] st1] eqn:Hq;
      simpl in Hst; subst st1;
      try (eexists [_]; repeat split; unfold count; simpl; lia).
    destruct (endsWith (Status ci) "(healthy)").
    + eexists [_]. repeat split; unfold count; simpl; lia.
    + apply await_getContainerInfo_val in Hq
        as (cis & i & Hst1 & _ & _ & _).
      unfold record in Hst1. injection Hst1 as Hr.
      apply app_inv_head in Hr. injection Hr as Hr.
      destruct (IH (record (record st (EListContainers
                                         (listContainersReply rt
                                            (count isListContainers (trace st)))))
                           (ESleep 1000)))
        as (evs & He & Hshape & Hcount & Hall).
      rewrite Hr in *.
      exists (EListContainers (Fulfil cis) :: ESleep 1000 :: evs).
      split; [|split; [|split]].
      * rewrite He. unfold record. simpl. now rewrite <- !app_assoc.
      * now apply pollShape_cons_wait.
      * unfold count in *. simpl. lia.
      * simpl. exact Hall.
Qed.

(** The poll ends normally only on a listing in which the first container
    with the recorded id, which is not blank, reports a status ending with
    "(healthy)"; that query is its last request. *)
Lemma healthLoop_val (fuel : nat) :
  forall st st',
    healthLoop rt fuel st = (Val tt, st') ->
    exists i cis ci t,
      containerId (this st) = Some i /\
      trimsToEmpty i = false /\
      this st' = this st /\
      trace st' = (t ++ [EListContainers (Fulfil cis)])%list /\
      find (fun x => String.eqb (Id x) i) cis = Some ci /\
      endsWith (Status ci) "(healthy)" = true.
Proof.
  induction fuel as [|fuel IH]; intros st st'; [discriminate|].
  rewrite healthLoop_S.
  destruct (bind (getContainerInfo rt) _ st) as [[ci|e| |] st1] eqn:Hq;
    try discriminate.
  apply await_getContainerInfo_val in Hq as (cis & i & Hst1 & Hid & Hb & Hf).
  destruct (endsWith (Status ci) "(healthy)") eqn:Hh.
  - intro H. injection H as <-. subst st1.
    exists i, cis, ci, (trace st). repeat split; trivial.
  - intro H. apply IH in H as (i' & cis' & ci' & t & Hid' & Hb' & Ht & Htr & Hf' & Hh').
    subst st1. simpl in Hid', Ht.
    exists i', cis', ci', t. repeat split; trivial.
Qed.


(** As long as the container is found unhealthy, the poll queries, waits
    and goes on. *)
Lemma healthLoop_skip_unhealthy (n : nat) :
  forall (statuses : nat -> string) (st : St) (fuel : nat) (cid : string),
    containerId (this st) = Some cid ->
    trimsToEmpty cid = false ->
    reports rt (count isListContainers (trace st)) cid statuses n ->
    (forall k, k < n -> endsWith (statuses k) "(healthy)" = false) ->
    healthLoop rt (n + fuel) st =
    healthLoop rt fuel
      {| this := this st;
         trace :=
           (trace st ++
            unhealthyEvents rt (count isListContainers (trace st)) n)%list |}.
Proof.
  induction n as [|n IH]; intros statuses st fuel cid Hid Hblank Hrep Hun.
  - simpl. rewrite app_nil_r. destruct st; reflexivity.
  - destruct (Hrep 0) as (cis & ci & Hr & Hfind & Hs); [lia|].
    rewrite Nat.add_0_r in Hr.
    change (S n + fuel) with (S (n + fuel)).
    rewrite (healthLoop_step rt (n + fuel) st Hid Hblank Hr Hfind).
    cbv zeta. rewrite Hs, (Hun 0) by lia.
    set (st2 := record (record st (EListContainers (Fulfil cis))) (ESleep 1000)).
    assert (Hk : count isListContainers (trace st2) =
                 S (count isListContainers (trace st))).
    { unfold st2. rewrite !count_record. simpl. lia. }
    rewrite (IH (fun k => statuses (S k)) st2 fuel cid); try assumption.
    + rewrite Hk. simpl. rewrite Hr. unfold st2, record; simpl.
      now rewrite <- !app_assoc.
    + rewrite Hk. now apply reports_shift.
    + intros k Hlt. apply Hun. lia.
Qed.

Lemma count_unhealthyEvents_queries (n k : nat) :
  count isListContainers (unhealthyEvents rt k n) = n.
Proof.
  revert k. induction n as [|n IH]; intro k; [reflexivity|].
  change (S (count isListContainers (unhealthyEvents rt (S k) n)) = S n).
  now rewrite IH.
Qed.

Lemma count_unhealthyEvents_waits (n k : nat) :
  count (isSleepOf 1000) (unhealthyEvents rt k n) = n.
Proof.
  revert k. induction n as [|n IH]; intro k; [reflexivity|].
  change (S (count (isSleepOf 1000) (unhealthyEvents rt (S k) n)) = S n).
  now rewrite IH.
Qed.

End Poll.

(** ** The stages of [start()] *)

Section Stages.

Variable rt : Runtime.

(** The launch: the run request, then what the runtime does with it. *)
Lemma launch_exact (fuel : nat) (st : St) :
  launch rt fuel st =
  match runReply rt (count isRun (trace st)) (imageFqn (this st)) with
  | Fulfil c => once (onStart rt fuel c) (record st (runRequest rt st))
  | Reject err => (Val (Rejected err), record st (runRequest rt st))
  | Silent => (Val Pending, record st (runRequest rt st))
  end.
Proof.
  unfold launch, runRequest, imageFqn, runCreateOptions. cbv zeta.
  destruct (runReply rt _ _); reflexivity.
Qed.

(** The listener as the emitter runs it: the two fields are recorded; a
    log streaming that does not succeed leaves the promise of [start()]
    pending; otherwise the poll settles it. *)
Lemma once_onStart (fuel : nat) (c : Container) (st : St) :
  once (onStart rt fuel c) st =
  let st0 := {| this := recorded (this st) c; trace := trace st |} in
  if emitContainerLogs (this st) then
    let r := streamLogsReply rt (count isStreamLogs (trace st)) c in
    let st1 :=
      record st0 (EStreamLogs c ("[" ++ imageFqn (this st) ++ "]") r) in
    match r with
    | Fulfil _ => settle c (healthLoop rt fuel st1)
    | _ => (Val Pending, st1)
    end
  else settle c (healthLoop rt fuel st0).
Proof.
  unfold once. rewrite onStart_unfold. cbv zeta. unfold imageFqn, settle.
  destruct (emitContainerLogs (this st)).
  - destruct (streamLogsReply rt _ c) as [[]|e|]; try reflexivity.
    rewrite poll_unfold.
    destruct (healthLoop rt fuel _) as [[[]|e| |] s]; reflexivity.
  - rewrite poll_unfold.
    destruct (healthLoop rt fuel _) as [[[]|e| |] s]; reflexivity.
Qed.

Lemma afterCleanUp_none (st : St) :
  container (this st) = None -> afterCleanUp st = st.
Proof.
  intro H. unfold afterCleanUp, cleanUpEvents. rewrite H, app_nil_r.
  now destruct st.
Qed.

Lemma count_afterCleanUp (p : event -> bool) (st : St) :
  (forall e, isStop e = true -> p e = false) ->
  (forall e, isRemove e = true -> p e = false) ->
  count p (trace (afterCleanUp st)) = count p (trace st).
Proof.
  intros Hs Hr. unfold afterCleanUp, cleanUpEvents. simpl.
  rewrite count_app. destruct (container (this st)) as [c0|].
  - unfold count at 2. simpl.
    rewrite (Hs (EStop c0 (Fulfil tt))), (Hr (ERemove c0 (Fulfil tt)))
      by reflexivity.
    simpl. lia.
  - unfold count at 2. simpl. lia.
Qed.

Lemma runRequest_afterCleanUp (st : St) :
  runRequest rt (afterCleanUp st) = runRequest rt st.
Proof.
  unfold runRequest. rewrite count_afterCleanUp; [reflexivity| |];
    now intros [].
Qed.

(** After a successful clean-up comes the launch. *)
Lemma start_after_cleanUp (fuel : nat) (st : St) :
  cleanUpSucceeds rt st ->
  start rt fuel st = launch rt fuel (afterCleanUp st).
Proof.
  unfold cleanUpSucceeds. intro H. rewrite start_unfold.
  destruct (container (this st)) as [c0|] eqn:Hc.
  - destruct H as [Hs Hr]. rewrite Hs, Hr. cbv zeta.
    f_equal. unfold afterCleanUp, cleanUpEvents, record. rewrite Hc. simpl.
    now rewrite <- app_assoc.
  - now rewrite afterCleanUp_none.
Qed.

(** The requests of a launch: the run request, at most one log request and
    then a poll. *)
Lemma launch_grammar (fuel : nat) (st : St) :
  exists logs pollevs,
    trace (snd (launch rt fuel st)) =
    (trace st ++ runRequest rt st :: logs ++ pollevs)%list /\
    forallb isStreamLogs logs = true /\
    List.length logs <= 1 /\
    pollShape pollevs = true /\
    count isListContainers pollevs <= fuel /\
    forallb isQueryOrWait pollevs = true.
Proof.
  rewrite launch_exact.
  destruct (runReply rt _ _) as [c|e|];
    try (exists [], []; unfold count; simpl; repeat split; lia).
  rewrite once_onStart. cbv zeta.
  set (st1 := record st (runRequest rt st)).
  assert (Hsettle : forall s, snd (settle c (healthLoop rt fuel s)) =
                              snd (healthLoop rt fuel s)).
  { intro s. unfold settle.
    destruct (healthLoop rt fuel s) as [[[]|e| |] s']; reflexivity. }
  destruct (emitContainerLogs (this st1)).
  - destruct (streamLogsReply rt _ c) as [[]|e|].
    + set (ev := EStreamLogs c _ _).
      set (s1 := record _ ev).
      destruct (healthLoop_shape rt fuel s1)
        as (evs & He & Hshape & Hcount & Hall).
      exists [ev], evs. rewrite Hsettle, He.
      split; [|repeat split; trivial; simpl; lia].
      unfold s1, st1, record. simpl. now rewrite <- !app_assoc.
    + eexists [_], []. simpl.
      split; [unfold st1, record; simpl; now rewrite <- !app_assoc|].
      repeat split; trivial; unfold count; simpl; lia.
    + eexists [_], []. simpl.
      split; [unfold st1, record; simpl; now rewrite <- !app_assoc|].
      repeat split; trivial; unfold count; simpl; lia.
  - set (s0 := {| this := _; trace := trace st1 |}).
    destruct (healthLoop_shape rt fuel s0) as (evs & He & Hshape & Hcount & Hall).
    exists [], evs. rewrite Hsettle, He.
    split; [|repeat split; trivial; simpl; lia].
    unfold s0, st1, record. simpl. now rewrite <- !app_assoc.
Qed.

(** The requests of a call of [start()]: clean-up requests, then nothing
    more or the launch. *)
Lemma start_grammar (fuel : nat) (st : St) :
  exists pre run logs pollevs,
    trace (snd (start rt fuel st)) =
    (trace st ++ pre ++ run ++ logs ++ pollevs)%list /\
    forallb (fun e => isStop e || isRemove e) pre = true /\
    (run = [runRequest rt st] \/ run = [] /\ logs = [] /\ pollevs = []) /\
    forallb isStreamLogs logs = true /\
    List.length logs <= 1 /\
    pollShape pollevs = true /\
    count isListContainers pollevs <= fuel /\
    forallb isQueryOrWait pollevs = true.
Proof.
  rewrite start_unfold.
  assert (Hfail : forall pre,
             forallb (fun e => isStop e || isRemove e) pre = true ->
             exists pre0 run logs pollevs,
               (trace st ++ pre)%list =
               (trace st ++ pre0 ++ run ++ logs ++ pollevs)%list /\
               forallb (fun e => isStop e || isRemove e) pre0 = true /\
               (run = [runRequest rt st] \/
                run = [] /\ logs = [] /\ pollevs = []) /\
               forallb isStreamLogs logs = true /\
               List.length logs <= 1 /\
               pollShape pollevs = true /\
               count isListContainers pollevs <= fuel /\
               forallb isQueryOrWait pollevs = true).
  { intros pre Hpre. exists pre, [], [], []. rewrite !app_nil_r.
    split; [reflexivity|]. split; [exact Hpre|]. split; [right; auto|].
    repeat split; trivial; unfold count; simpl; lia. }
  destruct (container (this st)) as [c0|] eqn:Hc.
  - cbv zeta.
    destruct (stopReply rt _ c0) as [[]|e|] eqn:Hs;
      try (apply (Hfail [_]); reflexivity).
    destruct (removeReply rt _ c0) as [[]|e|] eqn:Hr;
      try (unfold record; simpl; rewrite <- app_assoc;
           apply (Hfail [_; _]); reflexivity).
    assert (Hclean : cleanUpSucceeds rt st).
    { unfold cleanUpSucceeds. rewrite Hc. auto. }
    replace (record (record st (EStop c0 (Fulfil tt))) (ERemove c0 (Fulfil tt)))
      with (afterCleanUp st).
    + destruct (launch_grammar fuel (afterCleanUp st))
        as (logs & pollevs & Ht & Hrest).
      exists (cleanUpEvents st), [runRequest rt st], logs, pollevs.
      split; [|split; [|split; [auto | exact Hrest]]].
      * rewrite Ht, runRequest_afterCleanUp. unfold afterCleanUp. simpl.
        now rewrite <- !app_assoc.
      * unfold cleanUpEvents. rewrite Hc. reflexivity.
    + unfold afterCleanUp, cleanUpEvents, record. rewrite Hc. simpl.
      now rewrite <- app_assoc.
  - destruct (launch_grammar fuel st) as (logs & pollevs & Ht & Hrest).
    exists [], [runRequest rt st], logs, pollevs.
    split; [exact Ht|]. split; [reflexivity|]. split; [auto | exact Hrest].
Qed.

(** A call of [start()] that resolves has ended its poll normally, on an
    object that records the container it resolves with. *)
Lemma start_fulfilled_poll (fuel : nat) (st st' : St) (c : Container) :
  start rt fuel st = (Val (Fulfilled c), st') ->
  exists s0,
    this s0 = recorded (this st) c /\
    healthLoop rt fuel s0 = (Val tt, st').
Proof.
  assert (Hsettle : forall c' s,
             settle c' (healthLoop rt fuel s) = (Val (Fulfilled c), st') ->
             c' = c /\ healthLoop rt fuel s = (Val tt, st')).
  { intros c' s. unfold settle.
    destruct (healthLoop rt fuel s) as [[[]|e| |] s']; try discriminate.
    intro H. injection H as -> ->. auto. }
  assert (Hl : forall s,
             launch rt fuel s = (Val (Fulfilled c), st') ->
             exists s0,
               this s0 = recorded (this s) c /\
               healthLoop rt fuel s0 = (Val tt, st')).
  { intro s. rewrite launch_exact.
    destruct (runReply rt _ _) as [c'|e|]; try discriminate.
    rewrite once_onStart. cbv zeta.
    destruct (emitContainerLogs _).
    - destruct (streamLogsReply rt _ c') as [[]|e|]; try discriminate.
      intro H. apply Hsettle in H as [-> H]. eexists. split; [|exact H].
      reflexivity.
    - intro H. apply Hsettle in H as [-> H]. eexists. split; [|exact H].
      reflexivity. }
  rewrite start_unfold.
  destruct (container (this st)) as [c0|]; [|apply Hl].
  cbv zeta.
  destruct (stopReply rt _ c0) as [[]|e|]; try discriminate.
  destruct (removeReply rt _ c0) as [[]|e|]; try discriminate.
  intro H. apply Hl in H as (s0 & Hthis & H). now exists s0.
Qed.


End Stages.

(** ** Configuration *)

Section Configuration.

Variable rt : Runtime.

(** No call changes the configuration of the object. *)
Lemma after_configuration (c : call) (st : St) :
  opts (this (after rt c st)) = opts (this st) /\
  envVars (this (after rt c st)) = envVars (this st) /\
  emitContainerLogs (this (after rt c st)) = emitContainerLogs (this st).
Proof.
  destruct (isCallStart c) eqn:Hc.
  - destruct c; try discriminate. simpl.
    destruct (start_this rt fuel st) as [-> | [c' ->]]; repeat split.
  - rewrite after_object by exact Hc. repeat split.
Qed.

End Configuration.

(** X1.  The constructor keeps the options object and fixes the environment
    and the log switch once and for all: the environment is the [envVars]
    option as given (an empty array included) and the one-element default
    when it is omitted; logs are forwarded unless the option says [false].
    No sequence of calls changes any of them. *)
Theorem constructor_configuration_persists
        (rt : Runtime) (o : Opts.t) (cs : list call) :
  exists h,
    new_ChiaTestLedger o = inr h /\
    let st := afterAll rt cs (fresh h) in
    opts (this st) = o /\
    (Opts.envVars o = None -> envVars (this st) = [EmptyString]) /\
    (forall l, Opts.envVars o = Some l -> envVars (this st) = l) /\
    (Opts.emitContainerLogs o = None -> emitContainerLogs (this st) = true) /\
    (forall b, Opts.emitContainerLogs o = Some b ->
               emitContainerLogs (this st) = b).
Proof.
  rewrite new_ChiaTestLedger_total. eexists. split; [reflexivity|].
  set (h := {| opts := o |}). cbv zeta.
  assert (H : opts (this (afterAll rt cs (fresh h))) = opts h /\
              envVars (this (afterAll rt cs (fresh h))) = envVars h /\
              emitContainerLogs (this (afterAll rt cs (fresh h))) =
              emitContainerLogs h).
  { apply afterAll_invariant
      with (P := fun s => opts (this s) = opts h /\
                          envVars (this s) = envVars h /\
                          emitContainerLogs (this s) = emitContainerLogs h).
    - intros c s (H1 & H2 & H3).
      destruct (after_configuration rt c s) as (H1' & H2' & H3').
      repeat split; congruence.
    - repeat split. }
  destruct H as (Ho & He & Hl). rewrite Ho, He, Hl. simpl.
  repeat split.
  - intros ->. reflexivity.
  - intros l ->. reflexivity.
  - intros ->. reflexivity.
  - intros b ->. reflexivity.
Qed.

Lemma constructor_configuration_persists_witness :
  let rt := scriptedRuntime threeStatuses twoNetworks in
  (exists h,
      new_ChiaTestLedger noOptions = inr h /\
      envVars (this (afterAll rt [CallStart 3; CallStop] (fresh h))) =
      [EmptyString] /\
      emitContainerLogs (this (afterAll rt [CallStart 3; CallStop] (fresh h)))
      = true) /\
  (exists h,
      new_ChiaTestLedger customOptions = inr h /\
      envVars (this (afterAll rt [CallStart 3] (fresh h))) =
      ["A=1"; "B=2"; "A=1"] /\
      emitContainerLogs (this (afterAll rt [CallStart 3] (fresh h))) = false).
Proof.
  intro rt. split.
  - destruct (constructor_configuration_persists rt noOptions
                [CallStart 3; CallStop])
      as (h & Hnew & _ & Henv & _ & Hlog & _).
    exists h. split; [exact Hnew|]. split; [now apply Henv | now apply Hlog].
  - destruct (constructor_configuration_persists rt customOptions
                [CallStart 3])
      as (h & Hnew & _ & _ & Henv & _ & Hlog).
    exists h. split; [exact Hnew|].
    split; [now apply Henv | now apply Hlog].
Defined.

(** ** The requests of [start()] *)

Lemma count_none (p q : event -> bool) (t : list event) :
  forallb q t = true ->
  (forall e, q e = true -> p e = false) ->
  count p t = 0.
Proof.
  intros Hq Hpq. unfold count. induction t as [|e t IH]; simpl in *.
  - reflexivity.
  - apply andb_prop in Hq as [He Ht]. rewrite (Hpq e He). now apply IH.
Qed.

Lemma forallb_In (q : event -> bool) (t : list event) (e : event) :
  forallb q t = true -> In e t -> q e = true.
Proof.
  intros H Hin. rewrite forallb_forall in H. now apply H.
Qed.

(** X2.  A call of [start()] sends at most one run request, and that
    request is for the image [name:tag] of the object, with no command, as
    user "root", exposing 22/tcp, publishing all ports, privileged and with
    the environment of the object. *)
Theorem start_sends_one_run_request (rt : Runtime) (fuel : nat) (st : St) :
  exists evs,
    trace (snd (start rt fuel st)) = (trace st ++ evs)%list /\
    count isRun evs <= 1 /\
    forall e, In e evs -> isRun e = true ->
      e = ERun (template (imageName (this st)) ++ ":" ++
                template (imageVersion (this st)))
               []
               {| User := "root"; ExposedPorts := ["22/tcp"];
                  PublishAllPorts := true; Privileged := true;
                  Env := envVars (this st) |}
               (runReply rt (count isRun (trace st))
                  (template (imageName (this st)) ++ ":" ++
                   template (imageVersion (this st)))).
Proof.
  destruct (start_grammar rt fuel st)
    as (pre & run & logs & pollevs & Ht & Hpre & Hrun & Hlogs & _ & _ & _ & Hpoll).
  exists (pre ++ run ++ logs ++ pollevs)%list.
  assert (Hp : count isRun pre = 0).
  { apply count_none with (q := fun e => isStop e || isRemove e);
      [exact Hpre | now intros []]. }
  assert (Hl : count isRun logs = 0).
  { apply count_none with (q := isStreamLogs); [exact Hlogs | now intros []]. }
  assert (Hq : count isRun pollevs = 0).
  { apply count_none with (q := isQueryOrWait); [exact Hpoll | now intros []]. }
  split; [exact Ht|]. split.
  - rewrite !count_app, Hp, Hl, Hq.
    destruct Hrun as [-> | (-> & _)]; unfold count; simpl; lia.
  - intros e Hin He.
    apply in_app_or in Hin as [Hin | Hin].
    { apply (forallb_In _ _ _ Hpre) in Hin. destruct e; discriminate. }
    apply in_app_or in Hin as [Hin | Hin].
    { destruct Hrun as [-> | (-> & _)]; [|contradiction].
      destruct Hin as [<- | []]. reflexivity. }
    apply in_app_or in Hin as [Hin | Hin].
    { apply (forallb_In _ _ _ Hlogs) in Hin. destruct e; discriminate. }
    apply (forallb_In _ _ _ Hpoll) in Hin. destruct e; discriminate.
Qed.

Lemma start_sends_one_run_request_witness :
  let rt := scriptedRuntime threeStatuses twoNetworks in
  exists evs,
    trace (snd (start rt 3 (fresh customLedger))) = evs /\
    In (ERun "chia:v2.1.0" []
             {| User := "root"; ExposedPorts := ["22/tcp"];
                PublishAllPorts := true; Privileged := true;
                Env := ["A=1"; "B=2"; "A=1"] |}
             (Fulfil aContainer)) evs /\
    count isRun evs <= 1.
Proof.
  intro rt.
  destruct (start_sends_one_run_request rt 3 (fresh customLedger))
    as (evs & Ht & Hcount & Hrun).
  exists evs. split; [exact Ht|]. split; [|exact Hcount].
  assert (Hin : In (ERun "chia:v2.1.0" []
                         (runCreateOptions ["A=1"; "B=2"; "A=1"])
                         (Fulfil aContainer))
                   (trace (snd (start rt 3 (fresh customLedger)))))
    by (left; reflexivity).
  rewrite Ht in Hin. exact Hin.
Defined.

(** In a poll every wait lasts 1000 ms and follows a query of its own. *)
Lemma pollShape_counts (n : nat) :
  forall evs,
    List.length evs <= n -> pollShape evs = true ->
    count isSleep evs <= count isListContainers evs /\
    count (isSleepOf 1000) evs = count isSleep evs.
Proof.
  induction n as [|n IH]; intros evs Hlen Hshape.
  - destruct evs; [split; reflexivity | simpl in Hlen; lia].
  - destruct evs as [|e evs]; [split; reflexivity|].
    destruct e; try discriminate.
    destruct evs as [|e' evs]; [split; unfold count; simpl; lia|].
    destruct e'; try discriminate.
    destruct r as [cis|err|]; try discriminate.
    simpl in Hshape. apply andb_prop in Hshape as [Hms Hshape].
    apply Nat.eqb_eq in Hms. subst ms.
    destruct (IH evs) as [H1 H2]; [simpl in Hlen; lia | exact Hshape|].
    unfold count in *. simpl. split; lia.
Qed.

(** X3.  On any runtime and for any fuel, the requests of a call of
    [start()] are requests that precede the poll (stop, remove, run, log
    streaming) followed by a poll: status queries that alternate with waits,
    starting with a query; every wait lasts 1000 ms and directly follows a
    query that was answered with a listing; there are never more waits than
    queries, and at most one query per iteration. *)
Theorem start_poll_alternates (rt : Runtime) (fuel : nat) (st : St) :
  exists pre pollevs,
    trace (snd (start rt fuel st)) = (trace st ++ pre ++ pollevs)%list /\
    forallb isBeforePoll pre = true /\
    forallb isQueryOrWait pollevs = true /\
    pollShape pollevs = true /\
    count isListContainers pollevs <= fuel /\
    count isSleep pollevs <= count isListContainers pollevs /\
    count (isSleepOf 1000) pollevs = count isSleep pollevs.
Proof.
  destruct (start_grammar rt fuel st)
    as (pre & run & logs & pollevs & Ht & Hpre & Hrun & Hlogs & _ &
        Hshape & Hcount & Hpoll).
  exists (pre ++ run ++ logs)%list, pollevs.
  split; [now rewrite Ht, <- !app_assoc|].
  split.
  { rewrite !forallb_app. apply andb_true_intro. split.
    - rewrite forallb_forall in *. intros e He. specialize (Hpre e He).
      unfold isBeforePoll. destruct e; simpl in *; trivial; discriminate.
    - apply andb_true_intro. split.
      + destruct Hrun as [-> | (-> & _)]; reflexivity.
      + rewrite forallb_forall in *. intros e He. specialize (Hlogs e He).
        unfold isBeforePoll. destruct e; simpl in *; trivial; discriminate. }
  split; [exact Hpoll|]. split; [exact Hshape|]. split; [exact Hcount|].
  now apply pollShape_counts with (n := List.length pollevs).
Qed.

Lemma start_poll_alternates_witness :
  exists pre pollevs,
    trace (snd (start flakyRuntime 9 (fresh defaultLedger))) =
    (pre ++ pollevs)%list /\
    pollShape pollevs = true /\
    count isSleep pollevs <= count isListContainers pollevs.
Proof.
  destruct (start_poll_alternates flakyRuntime 9 (fresh defaultLedger))
    as (pre & pollevs & Ht & _ & _ & Hshape & _ & Hwaits & _).
  exists pre, pollevs. split; [exact Ht|]. split; [exact Hshape | exact Hwaits].
Defined.

(** X4.  Take a call of [start()] whose clean-up succeeds and whose run
    request is answered by the "start" event with [c].  With log forwarding
    disabled no log request is sent and the poll follows the run request.
    With log forwarding enabled exactly one log request follows the run
    request, for [c] and tagged with the image reference in square
    brackets; no status query precedes it, and if it is not fulfilled no
    status query is sent at all. *)
Theorem start_streams_logs_before_polling
        (rt : Runtime) (fuel : nat) (st : St) (c : Container) :
  cleanUpSucceeds rt st ->
  runReply rt (count isRun (trace st)) (imageFqn (this st)) = Fulfil c ->
  let r := streamLogsReply rt (count isStreamLogs (trace st)) c in
  let logs :=
    if emitContainerLogs (this st)
    then [EStreamLogs c ("[" ++ imageFqn (this st) ++ "]") r]
    else [] in
  exists pollevs,
    trace (snd (start rt fuel st)) =
    (trace st ++ cleanUpEvents st
       ++ ERun (imageFqn (this st)) []
               (runCreateOptions (envVars (this st))) (Fulfil c)
       :: logs ++ pollevs)%list /\
    forallb isQueryOrWait pollevs = true /\
    (emitContainerLogs (this st) = true -> isFulfil r = false ->
     pollevs = []).
Proof.
  intros Hclean Hrun r logs.
  rewrite (@start_after_cleanUp rt fuel st Hclean), launch_exact.
  assert (Hreq : runRequest rt (afterCleanUp st) =
                 ERun (imageFqn (this st)) []
                      (runCreateOptions (envVars (this st))) (Fulfil c)).
  { rewrite runRequest_afterCleanUp. unfold runRequest. now rewrite Hrun. }
  rewrite count_afterCleanUp by now intros [].
  change (this (afterCleanUp st)) with (this st). rewrite Hrun, Hreq.
  rewrite once_onStart. cbv zeta.
  assert (Hsettle : forall s, snd (settle c (healthLoop rt fuel s)) =
                              snd (healthLoop rt fuel s)).
  { intro s. unfold settle.
    destruct (healthLoop rt fuel s) as [[[]|e| |] s']; reflexivity. }
  change (this (record (afterCleanUp st) _)) with (this st).
  rewrite count_record, count_afterCleanUp by now intros [].
  simpl (if isStreamLogs _ then 1 else 0). rewrite Nat.add_0_r. fold r.
  unfold logs. destruct (emitContainerLogs (this st)).
  - destruct r as [[]|e|] eqn:Hr.
    + match goal with |- context [healthLoop rt fuel ?s] =>
        destruct (healthLoop_shape rt fuel s) as (evs & He & _ & _ & Hall)
      end.
      exists evs. rewrite Hsettle, He. split; [|split; [exact Hall|]].
      * unfold record, afterCleanUp. simpl. now rewrite <- !app_assoc.
      * discriminate.
    + exists []. split; [|split; reflexivity].
      unfold record, afterCleanUp. simpl. now rewrite <- !app_assoc.
    + exists []. split; [|split; reflexivity].
      unfold record, afterCleanUp. simpl. now rewrite <- !app_assoc.
  - match goal with |- context [healthLoop rt fuel ?s] =>
      destruct (healthLoop_shape rt fuel s) as (evs & He & _ & _ & Hall)
    end.
    exists evs. rewrite Hsettle, He. split; [|split; [exact Hall|]].
    + unfold record, afterCleanUp. simpl. now rewrite <- !app_assoc.
    + discriminate.
Qed.

Lemma start_streams_logs_before_polling_witness :
  let rt := scriptedRuntime threeStatuses twoNetworks in
  (exists pollevs,
      trace (snd (start rt 3 (fresh defaultLedger))) =
      ERun "ghcr.io/hyperledger/chia-all-in-one:v1.0.0" []
           (runCreateOptions [EmptyString]) (Fulfil aContainer)
        :: EStreamLogs aContainer
             "[ghcr.io/hyperledger/chia-all-in-one:v1.0.0]" (Fulfil tt)
        :: pollevs) /\
  (exists pollevs,
      trace (snd (start rt 3 (fresh customLedger))) =
      ERun "chia:v2.1.0" [] (runCreateOptions ["A=1"; "B=2"; "A=1"])
           (Fulfil aContainer)
        :: pollevs /\
      forallb isQueryOrWait pollevs = true).
Proof.
  intro rt. split.
  - destruct (@start_streams_logs_before_polling rt 3 (fresh defaultLedger)
                aContainer I eq_refl) as (pollevs & Ht & _).
    exists pollevs. exact Ht.
  - destruct (@start_streams_logs_before_polling rt 3 (fresh customLedger)
                aContainer I eq_refl) as (pollevs & Ht & Hall & _).
    exists pollevs. split; [exact Ht | exact Hall].
Defined.

(** ** Failures of [start()] *)

(** X5.  When the clean-up succeeds and the run request is not answered by
    a "start" event, [start()] rejects with the error the runtime gave to
    the callback, or stays pending if the runtime never answers; the run
    request is its last request (no log request, no status query) and the
    object is unchanged: no new container is recorded. *)
Theorem start_run_refused
        (rt : Runtime) (fuel : nat) (st : St) (r : reply Container) :
  cleanUpSucceeds rt st ->
  runReply rt (count isRun (trace st)) (imageFqn (this st)) = r ->
  isFulfil r = false ->
  exists st',
    start rt fuel st = (Val (failure r), st') /\
    this st' = this st /\
    trace st' =
    (trace st ++ cleanUpEvents st
       ++ [ERun (imageFqn (this st)) []
                (runCreateOptions (envVars (this st))) r])%list.
Proof.
  intros Hclean Hrun Hr.
  rewrite (@start_after_cleanUp rt fuel st Hclean), launch_exact.
  rewrite runRequest_afterCleanUp. unfold runRequest.
  rewrite count_afterCleanUp by now intros [].
  change (this (afterCleanUp st)) with (this st). rewrite Hrun.
  destruct r as [c|e|]; [discriminate| |];
    (eexists; split; [reflexivity|]; split; [reflexivity|];
     unfold record, afterCleanUp; simpl; now rewrite <- app_assoc).
Qed.

Lemma start_run_refused_witness :
  exists st',
    start refusingRuntime 4 (fresh customLedger) =
    (Val (Rejected (RuntimeError "no such image")), st') /\
    container (this st') = None /\
    List.length (trace st') = 1.
Proof.
  destruct (@start_run_refused refusingRuntime 4 (fresh customLedger)
              (Reject (RuntimeError "no such image")) I eq_refl eq_refl)
    as (st' & Hs & Hthis & Ht).
  exists st'. split; [exact Hs|]. rewrite Hthis, Ht. split; reflexivity.
Defined.

(** X6.  On a handle that records a container [c0], a stop request that is
    not fulfilled makes [start()] fail with its error (or stay pending)
    right there, and so does a remove request that is not fulfilled after a
    fulfilled stop: nothing is run, and the object still records [c0]. *)
Theorem start_cleanup_failure
        (rt : Runtime) (fuel : nat) (st : St) (c0 : Container) :
  container (this st) = Some c0 ->
  let r1 := stopReply rt (count isStop (trace st)) c0 in
  let r2 := removeReply rt (count isRemove (trace st)) c0 in
  (isFulfil r1 = false ->
   start rt fuel st = (Val (failure r1), record st (EStop c0 r1))) /\
  (isFulfil r1 = true -> isFulfil r2 = false ->
   start rt fuel st =
   (Val (failure r2), record (record st (EStop c0 r1)) (ERemove c0 r2))) /\
  (isFulfil r1 && isFulfil r2 = false ->
   this (snd (start rt fuel st)) = this st /\
   count isRun (trace (snd (start rt fuel st))) = count isRun (trace st)).
Proof.
  intros Hc r1 r2. rewrite start_unfold, Hc. cbv zeta. fold r1 r2.
  destruct r1 as [[]|e1|]; destruct r2 as [[]|e2|]; simpl;
    (split; [|split]); intros; try discriminate; try reflexivity;
    (split; [reflexivity|]);
    unfold record; simpl; rewrite ?count_app; unfold count; simpl; lia.
Qed.

(** A second [start()] after [stop()] and [destroy()], on a runtime that no
    longer knows the container: the handle still records the container, the
    stop request of the clean-up is rejected and nothing is run. *)
Lemma start_cleanup_failure_witness :
  let st1 :=
    afterAll stopOnceRuntime [CallStart 1; CallStop; CallDestroy]
             (fresh defaultLedger) in
  container (this st1) = Some aContainer /\
  fst (start stopOnceRuntime 1 st1) =
  Val (Rejected (RuntimeError "no such container")) /\
  count isRun (trace (snd (start stopOnceRuntime 1 st1))) = 1.
Proof.
  intro st1.
  destruct (@start_cleanup_failure stopOnceRuntime 1 st1 aContainer eq_refl)
    as (Hstop & _ & Hkeep).
  split; [reflexivity|]. split.
  - rewrite (Hstop eq_refl). reflexivity.
  - destruct (Hkeep eq_refl) as [_ Hruns]. rewrite Hruns. reflexivity.
Defined.

(** X7.  A failing status query is surfaced, not retried.  Take a call of
    [start()] that gets as far as the health poll of a container [c] with a
    non-blank id and finds it unhealthy [m] times.  If the next status
    query is rejected with [e], [start()] rejects with [e]; if the next
    listing does not contain the container, [start()] rejects with the "no
    container with ID" error.  In both cases that query is the last
    request, after [m] waits, and [c] stays recorded. *)
Theorem start_poll_error_surfaces
        (rt : Runtime) (st : St) (c : Container)
        (statuses : nat -> string) (m fuel : nat) :
  reachesPoll rt st c ->
  trimsToEmpty (id c) = false ->
  let k0 := count isListContainers (trace st) in
  reports rt k0 (id c) statuses m ->
  (forall k, k < m -> endsWith (statuses k) "(healthy)" = false) ->
  m < fuel ->
  let before :=
    (trace st ++ startPrelude rt st c ++ unhealthyEvents rt k0 m)%list in
  (forall e,
      listContainersReply rt (k0 + m) = Reject e ->
      start rt fuel st =
      (Val (Rejected e),
       {| this := recorded (this st) c;
          trace := (before ++ [EListContainers (Reject e)])%list |})) /\
  (forall cis,
      listContainersReply rt (k0 + m) = Fulfil cis ->
      find (fun x => String.eqb (Id x) (id c)) cis = None ->
      start rt fuel st =
      (Val (Rejected (noContainerWithId (id c))),
       {| this := recorded (this st) c;
          trace := (before ++ [EListContainers (Fulfil cis)])%list |})).
Proof.
  intros Hreach Hblank k0 Hrep Hun Hfuel before.
  set (st0 := {| this := recorded (this st) c;
                 trace := (trace st ++ startPrelude rt st c)%list |}).
  assert (Hk0 : count isListContainers (trace st0) = k0)
    by apply count_queries_prelude.
  assert (Hid : containerId (this st0) = Some (id c)) by reflexivity.
  set (stm := {| this := this st0;
                 trace := (trace st0 ++ unhealthyEvents rt k0 m)%list |}).
  assert (Hkm : count isListContainers (trace stm) = k0 + m).
  { change (trace stm) with (trace st0 ++ unhealthyEvents rt k0 m)%list.
    now rewrite count_app, count_unhealthyEvents_queries, Hk0. }
  assert (Hloop : healthLoop rt fuel st0 =
                  healthLoop rt (S (fuel - m - 1)) stm).
  { replace fuel with (m + S (fuel - m - 1)) at 1 by lia.
    rewrite (@healthLoop_skip_unhealthy rt m statuses st0 (S (fuel - m - 1))
               (id c) Hid Hblank); rewrite ?Hk0; trivial. }
  assert (Hstart : start rt fuel st =
                   settle c (healthLoop rt (S (fuel - m - 1)) stm)).
  { rewrite (start_reaches_poll fuel Hreach). fold st0.
    unfold once. rewrite poll_unfold, Hloop. unfold settle.
    destruct (healthLoop rt _ stm) as [[[]|e| |] s]; reflexivity. }
  assert (Hbefore : trace stm = before).
  { unfold stm, st0, before. simpl. now rewrite <- app_assoc. }
  split.
  - intros e He. rewrite Hstart, healthLoop_S, await_getContainerInfo.
    cbv zeta. rewrite Hkm, He. unfold settle, record.
    rewrite Hbefore. reflexivity.
  - intros cis Hcis Hfind.
    rewrite Hstart, healthLoop_S, await_getContainerInfo.
    cbv zeta. rewrite Hkm, Hcis.
    change (containerId (this stm)) with (Some (id c)). cbv beta iota.
    rewrite Hblank, Hfind. unfold settle, record.
    rewrite Hbefore. reflexivity.
Qed.

Lemma start_poll_error_surfaces_witness :
  (exists st',
      start flakyRuntime 9 (fresh defaultLedger) =
      (Val (Rejected (RuntimeError "connection lost")), st') /\
      count isListContainers (trace st') = 3 /\
      count (isSleepOf 1000) (trace st') = 2) /\
  (exists st',
      start vanishingRuntime 9 (fresh defaultLedger) =
      (Val (Rejected (noContainerWithId "abc")), st') /\
      count isListContainers (trace st') = 2).
Proof.
  split.
  - destruct (@start_poll_error_surfaces flakyRuntime (fresh defaultLedger)
                aContainer (fun _ => "Up 1 second (health: starting)") 2 9)
      as [Hrej _].
    + split; [exact I|]. split; reflexivity.
    + reflexivity.
    + intros k Hk. destruct k as [|[|k]]; [| |lia];
        eexists _, _; repeat split; reflexivity.
    + intros k _. reflexivity.
    + lia.
    + eexists. split; [apply Hrej; reflexivity|]. split; reflexivity.
  - destruct (@start_poll_error_surfaces vanishingRuntime (fresh defaultLedger)
                aContainer (fun _ => "Up 1 second (health: starting)") 1 9)
      as [_ Hgone].
    + split; [exact I|]. split; reflexivity.
    + reflexivity.
    + intros k Hk. destruct k as [|k]; [|lia].
      eexists _, _; repeat split; reflexivity.
    + intros k _. reflexivity.
    + lia.
    + eexists. split; [apply (Hgone []); reflexivity|]. reflexivity.
Defined.

(** ** What a resolved [start()] guarantees *)

(** X8.  On any runtime: if [start()] resolves with [c], then its last
    request was a status query answered with a listing in which the first
    container with the id of [c] reports a status ending with "(healthy)";
    the id of [c] is not blank, [getContainer()] returns [c] and
    [getContainerId()] returns its id. *)
Theorem start_resolves_only_when_healthy
        (rt : Runtime) (fuel : nat) (st st' : St) (c : Container) :
  start rt fuel st = (Val (Fulfilled c), st') ->
  trimsToEmpty (id c) = false /\
  (exists t cis ci,
      trace st' = (t ++ [EListContainers (Fulfil cis)])%list /\
      find (fun x => String.eqb (Id x) (id c)) cis = Some ci /\
      endsWith (Status ci) "(healthy)" = true) /\
  getContainer st' = (Val c, st') /\
  getContainerId st' = (Val (id c), st').
Proof.
  intro H.
  pose proof (start_fulfilled rt fuel st H) as Hthis.
  apply start_fulfilled_poll in H as (s0 & Hs0 & Hloop).
  apply healthLoop_val in Hloop
    as (i & cis & ci & t & Hid & Hb & _ & Ht & Hf & Hh).
  rewrite Hs0 in Hid. simpl in Hid. injection Hid as <-.
  split; [exact Hb|]. split; [now exists t, cis, ci|]. split.
  - unfold getContainer, bind, getThis. simpl. rewrite Hthis. reflexivity.
  - rewrite (@getContainerId_set st' (id c)) by now rewrite Hthis.
    now rewrite Hb.
Qed.

Lemma start_resolves_only_when_healthy_witness :
  let rt := scriptedRuntime threeStatuses twoNetworks in
  let st' := snd (start rt 5 (fresh defaultLedger)) in
  getContainerId st' = (Val "abc", st') /\
  exists t cis ci,
    trace st' = (t ++ [EListContainers (Fulfil cis)])%list /\
    find (fun x => String.eqb (Id x) "abc") cis = Some ci /\
    endsWith (Status ci) "(healthy)" = true.
Proof.
  intros rt st'.
  destruct (@start_resolves_only_when_healthy rt 5 (fresh defaultLedger) st'
              aContainer eq_refl) as (_ & Hlast & _ & Hid).
  split; [exact Hid | exact Hlast].
Defined.



(** ** Looking the container up *)

Lemma find_first (i : string) (before after : list ContainerInfo)
      (ci : ContainerInfo) :
  Id ci = i ->
  (forall x, In x before -> Id x <> i) ->
  find (fun x => String.eqb (Id x) i) (before ++ ci :: after) = Some ci.
Proof.
  intros Hci. induction before as [|b before IH]; intros Hb; simpl.
  - apply String.eqb_eq in Hci. now rewrite Hci.
  - destruct (String.eqb (Id b) i) eqn:E.
    + apply String.eqb_eq in E. elim (Hb b); [now left | exact E].
    + apply IH. intros x Hx. apply Hb. now right.
Qed.

Lemma find_absent (i : string) (cis : list ContainerInfo) :
  (forall x, In x cis -> Id x <> i) ->
  find (fun x => String.eqb (Id x) i) cis = None.
Proof.
  induction cis as [|b cis IH]; intros Hb; simpl; [reflexivity|].
  destruct (String.eqb (Id b) i) eqn:E.
  - apply String.eqb_eq in E. elim (Hb b); [now left | exact E].
  - apply IH. intros x Hx. apply Hb. now right.
Qed.

(** X10.  [getContainerInfo()] always sends exactly one status query and
    touches nothing else, and only looks at the recorded id once the
    listing has arrived.  A rejected query rejects it with the same error
    and an unanswered one leaves it pending.  On a listing it rejects with
    the error of the non-blank check when the recorded id is unset or
    blank, rejects with the "no container with ID" error when no listed
    container has the recorded id, and otherwise resolves with the first
    listed container that has it. *)
Theorem getContainerInfo_query_then_check (rt : Runtime) (st : St) :
  let r := listContainersReply rt (count isListContainers (trace st)) in
  let result := fst (getContainerInfo rt st) in
  snd (getContainerInfo rt st) = record st (EListContainers r) /\
  (forall e, r = Reject e -> result = Val (Rejected e)) /\
  (r = Silent -> result = Val Pending) /\
  (forall cis, r = Fulfil cis ->
     (containerId (this st) = None ->
      result = Val (Rejected (ChecksError getContainerId_subject))) /\
     (forall i, containerId (this st) = Some i -> trimsToEmpty i = true ->
      result = Val (Rejected (ChecksError getContainerId_subject))) /\
     (forall i, containerId (this st) = Some i -> trimsToEmpty i = false ->
      (forall x, In x cis -> Id x <> i) ->
      result = Val (Rejected (noContainerWithId i))) /\
     (forall i before ci after,
         containerId (this st) = Some i -> trimsToEmpty i = false ->
         cis = (before ++ ci :: after)%list ->
         Id ci = i ->
         (forall x, In x before -> Id x <> i) ->
         result = Val (Fulfilled ci))).
Proof.
  intros r result. unfold result.
  rewrite getContainerInfo_promise.
  pose proof (await_getContainerInfo_state rt st) as Hst.
  rewrite await_getContainerInfo in *. cbv zeta in *. fold r in Hst |- *.
  split.
  { destruct r as [cis|e|]; try reflexivity.
    destruct (containerId (this st)) as [i|]; [|reflexivity].
    destruct (trimsToEmpty i); [reflexivity|].
    destruct (find _ cis); reflexivity. }
  split; [intros e ->; reflexivity|].
  split; [intros ->; reflexivity|].
  intros cis ->. split; [|split; [|split]].
  - intros ->. reflexivity.
  - intros i -> ->. reflexivity.
  - intros i -> -> Habsent. now rewrite (@find_absent i cis Habsent).
  - intros i before ci after -> -> -> <- Hfirst.
    now rewrite (@find_first (Id ci) before after ci eq_refl Hfirst).
Qed.

Lemma getContainerInfo_query_then_check_witness :
  let rt := scriptedRuntime threeStatuses twoNetworks in
  fst (getContainerInfo rt (fresh defaultLedger)) =
  Val (Rejected (ChecksError getContainerId_subject)) /\
  trace (snd (getContainerInfo rt (fresh defaultLedger))) =
  [EListContainers (Fulfil [infoOf "starting" twoNetworks])].
Proof.
  intro rt.
  destruct (getContainerInfo_query_then_check rt (fresh defaultLedger))
    as (Hst & _ & _ & Hlist).
  destruct (Hlist [infoOf "starting" twoNetworks] eq_refl) as (Hunset & _).
  split; [exact (Hunset eq_refl)|]. rewrite Hst. reflexivity.
Defined.

(** X11.  On a handle that records no container id, [getContainerIpAddress()]
    never resolves: it still sends one status query and then rejects, with
    the error of the non-blank check if the listing arrives and with the
    error of the runtime if the query is rejected, or stays pending if the
    query is never answered. *)
Theorem getContainerIpAddress_unstarted (rt : Runtime) (st : St) :
  containerId (this st) = None ->
  let r := listContainersReply rt (count isListContainers (trace st)) in
  getContainerIpAddress rt st =
  (Val match r with
       | Fulfil _ => Rejected (ChecksError getContainerId_subject)
       | Reject e => Rejected e
       | Silent => Pending
       end,
   record st (EListContainers r)).
Proof.
  intros Hid r. unfold getContainerIpAddress, async.
  unfold bind at 1. rewrite await_getContainerInfo. cbv zeta. fold r.
  rewrite Hid. destruct r; reflexivity.
Qed.

Lemma getContainerIpAddress_unstarted_witness :
  getContainerIpAddress (scriptedRuntime threeStatuses twoNetworks)
                        (fresh defaultLedger) =
  (Val (Rejected (ChecksError getContainerId_subject)),
   record (fresh defaultLedger)
          (EListContainers (Fulfil [infoOf "starting" twoNetworks]))).
Proof.
  apply (@getContainerIpAddress_unstarted
           (scriptedRuntime threeStatuses twoNetworks) (fresh defaultLedger)
           eq_refl).
Defined.

(** ** Tearing down, and the calls that are not [start()] *)

Section TearDown.

Variable rt : Runtime.

Lemma afterAll_object (cs : list call) :
  forall st,
    forallb (fun c => negb (isCallStart c)) cs = true ->
    this (afterAll rt cs st) = this st.
Proof.
  induction cs as [|c cs IH]; intros st Hcs; [reflexivity|].
  simpl in Hcs. apply andb_prop in Hcs as [Hc Hcs].
  apply negb_true_iff in Hc.
  rewrite afterAll_cons, IH by exact Hcs. now apply after_object.
Qed.

Lemma getContainerIpAddress_state (st : St) :
  snd (getContainerIpAddress rt st) =
  record st (EListContainers
               (listContainersReply rt (count isListContainers (trace st)))).
Proof.
  unfold getContainerIpAddress, async. unfold bind at 1.
  pose proof (await_getContainerInfo_state rt st) as Hst.
  destruct (bind (getContainerInfo rt) _ st) as [[ci|e| |] st1];
    simpl in Hst; subst st1; try reflexivity.
  destruct (Nat.ltb _ 1); [reflexivity|].
  destruct (nth_error _ 0); [|reflexivity].
  destruct (get _ _); reflexivity.
Qed.

End TearDown.

(** X12.  Once a container [c] is recorded, it stays the target of the
    tear-down until [start()] is called again: after any calls other than
    [start()] (earlier [stop()] and [destroy()] calls included),
    [getContainer()] returns [c], [stop()] sends a stop request for [c] and
    [destroy()] sends a remove request for [c], each returning the promise
    of its request and leaving the object unchanged. *)
Theorem teardown_targets_recorded_container
        (rt : Runtime) (st : St) (c : Container) (cs : list call) :
  container (this st) = Some c ->
  forallb (fun k => negb (isCallStart k)) cs = true ->
  let st' := afterAll rt cs st in
  let rs := stopReply rt (count isStop (trace st')) c in
  let rr := removeReply rt (count isRemove (trace st')) c in
  getContainer st' = (Val c, st') /\
  stop rt st' = (Val (promise_of rs), record st' (EStop c rs)) /\
  destroy rt st' = (Val (promise_of rr), record st' (ERemove c rr)).
Proof.
  intros Hc Hcs st' rs rr.
  assert (Hc' : container (this st') = Some c).
  { unfold st'. now rewrite afterAll_object. }
  unfold stop, destroy, getContainer, bind, getThis. simpl.
  rewrite Hc'. repeat split.
Qed.

(** A second [destroy()] sends a second remove request for the same
    container. *)
Lemma teardown_targets_recorded_container_witness :
  let rt := scriptedRuntime threeStatuses twoNetworks in
  let st1 := snd (start rt 3 (fresh defaultLedger)) in
  let st2 := afterAll rt [CallStop; CallDestroy] st1 in
  destroy rt st2 =
  (Val (Fulfilled tt), record st2 (ERemove aContainer (Fulfil tt))) /\
  count isRemove (trace (snd (destroy rt st2))) = 2.
Proof.
  intros rt st1 st2.
  destruct (@teardown_targets_recorded_container rt st1 aContainer
              [CallStop; CallDestroy] eq_refl eq_refl) as (_ & _ & Hd).
  fold st2 in Hd. split; [exact Hd|]. rewrite Hd. reflexivity.
Defined.

(** X13.  Only [start()] changes the object and only [start()] runs
    containers, queries in a loop or waits.  Every other public method
    leaves the object as it is and sends at most one request: [stop()] a
    stop request and [destroy()] a remove request for the recorded
    container (none when there is no container), [getContainerIpAddress()]
    one status query (even when nothing is recorded), and the accessors
    [getContainer()], [getContainerId()] and [getContainerImageName()]
    none. *)
Theorem other_calls_frame (rt : Runtime) (k : call) (st : St) :
  isCallStart k = false ->
  this (after rt k st) = this st /\
  trace (after rt k st) =
  (trace st ++
   match k with
   | CallStop =>
       match container (this st) with
       | Some c => [EStop c (stopReply rt (count isStop (trace st)) c)]
       | None => []
       end
   | CallDestroy =>
       match container (this st) with
       | Some c => [ERemove c (removeReply rt (count isRemove (trace st)) c)]
       | None => []
       end
   | CallGetContainerIpAddress =>
       [EListContainers
          (listContainersReply rt (count isListContainers (trace st)))]
   | _ => []
   end)%list.
Proof.
  intro Hk. split; [now apply after_object|].
  destruct k; try discriminate; simpl.
  - unfold stop, getContainer, bind, getThis. simpl.
    destruct (container (this st)); simpl; [reflexivity | now rewrite app_nil_r].
  - unfold destroy, bind, getThis. simpl.
    destruct (container (this st)); simpl; [reflexivity | now rewrite app_nil_r].
  - now rewrite getContainer_state, app_nil_r.
  - now rewrite getContainerId_state, app_nil_r.
  - now rewrite app_nil_r.
  - now rewrite getContainerIpAddress_state.
Qed.

Lemma other_calls_frame_witness :
  let rt := scriptedRuntime threeStatuses twoNetworks in
  trace (after rt CallGetContainerIpAddress (fresh defaultLedger)) =
  [EListContainers (Fulfil [infoOf "starting" twoNetworks])] /\
  trace (after rt CallStop (fresh defaultLedger)) = [] /\
  this (after rt CallDestroy (snd (start rt 3 (fresh defaultLedger)))) =
  this (snd (start rt 3 (fresh defaultLedger))).
Proof.
  intro rt. split; [|split].
  - destruct (@other_calls_frame rt CallGetContainerIpAddress
                (fresh defaultLedger) eq_refl) as [_ Ht].
    rewrite Ht. reflexivity.
  - destruct (@other_calls_frame rt CallStop (fresh defaultLedger) eq_refl)
      as [_ Ht].
    rewrite Ht. reflexivity.
  - apply (@other_calls_frame rt CallDestroy
             (snd (start rt 3 (fresh defaultLedger))) eq_refl).
Defined.

(** ** The schema check *)

Lemma joi_string_min_required_nonempty (key s : string) (limit : nat) :
  s <> EmptyString ->
  joi_string_min_required key limit (Some s) =
  if Nat.ltb (String.length s) limit
  then Some (string_min key limit)
  else None.
Proof.
  destruct s; [intro H; now elim H | reflexivity].
Qed.

(** X14.  On a handle built by the constructor, the schema check of
    [validateConstructorOptions()], which the constructor does not run,
    depends on the length of the tag alone: it passes when the tag has at
    least five characters, as the default tag has, and otherwise throws the
    minimum-length error for [imageVersion]; it never fails on the image
    name and never reports a missing or empty value.  It changes
    nothing. *)
Theorem validateConstructorOptions_on_constructed
        (o : Opts.t) (t : list event) :
  exists h tag,
    new_ChiaTestLedger o = inr h /\
    imageVersion h = Some tag /\
    validateConstructorOptions {| this := h; trace := t |} =
    (if Nat.leb 5 (String.length tag)
     then Val tt
     else Exn (AnnotatedError "ChiaTestLedger#ctor"
                              (string_min "imageVersion" 5)),
     {| this := h; trace := t |}) /\
    (Opts.imageVersion o = None ->
     validateConstructorOptions {| this := h; trace := t |} =
     (Val tt, {| this := h; trace := t |})).
Proof.
  rewrite new_ChiaTestLedger_total.
  eexists; exists (or_string (Opts.imageVersion o) DEFAULTS.imageVersion).
  split; [reflexivity|]. split; [reflexivity|].
  assert (Hv : or_string (Opts.imageVersion o) DEFAULTS.imageVersion
               <> EmptyString) by (apply or_string_nonempty; discriminate).
  assert (Hn : or_string (Opts.imageName o) DEFAULTS.imageName
               <> EmptyString) by (apply or_string_nonempty; discriminate).
  assert (Hname : joi_string_min_required "imageName" 1
                    (Some (or_string (Opts.imageName o) DEFAULTS.imageName))
                  = None).
  { rewrite joi_string_min_required_nonempty by exact Hn.
    destruct (or_string (Opts.imageName o) DEFAULTS.imageName);
      [now elim Hn | reflexivity]. }
  assert (H : forall tag,
             tag <> EmptyString ->
             CHIA_TEST_LEDGER_OPTIONS_JOI_SCHEMA_validate (Some tag)
               (Some (or_string (Opts.imageName o) DEFAULTS.imageName)) =
             if Nat.leb 5 (String.length tag)
             then None
             else Some (string_min "imageVersion" 5)).
  { intros tag Htag. unfold CHIA_TEST_LEDGER_OPTIONS_JOI_SCHEMA_validate.
    rewrite joi_string_min_required_nonempty by exact Htag.
    destruct (Nat.ltb_spec (String.length tag) 5) as [Hlt|Hge].
    - destruct (Nat.leb_spec 5 (String.length tag)); [lia | reflexivity].
    - destruct (Nat.leb_spec 5 (String.length tag)); [exact Hname | lia]. }
  unfold validateConstructorOptions, bind, getThis.
  cbn [this imageVersion imageName]. rewrite (H _ Hv).
  split.
  - destruct (Nat.leb 5 _); reflexivity.
  - intros ->. reflexivity.
Qed.

Lemma validateConstructorOptions_on_constructed_witness :
  (exists h,
      new_ChiaTestLedger noOptions = inr h /\
      validateConstructorOptions (fresh h) = (Val tt, fresh h)) /\
  (exists h,
      new_ChiaTestLedger shortTagOptions = inr h /\
      fst (validateConstructorOptions (fresh h)) =
      Exn (AnnotatedError "ChiaTestLedger#ctor" (string_min "imageVersion" 5))).
Proof.
  split.
  - destruct (validateConstructorOptions_on_constructed noOptions [])
      as (h & tag & Hnew & _ & _ & Hdefault).
    exists h. split; [exact Hnew | now apply Hdefault].
  - destruct (validateConstructorOptions_on_constructed shortTagOptions [])
      as (h & tag & Hnew & Htag & Hcheck & _).
    exists h. split; [exact Hnew|].
    injection Hnew as <-. injection Htag as <-.
    unfold fresh. rewrite Hcheck. reflexivity.
Defined.
